(** * MAX7219.js: a shallow embedding of the driver and its specification

    The development follows [MAX7219.js]: the register map, the font
    table, [encodeByte], the controller object with its decode-mode state,
    and the SPI transport the controller talks to.  JavaScript values are
    modelled as far as the driver inspects them; every method of the
    prototype is a computation in a state-and-exception monad, so that a
    [throw] keeps the mutations made before it. *)

From Stdlib Require Import ZArith Lia Ascii String.
From stdpp Require Import base option list strings pretty gmap.

Local Open Scope string_scope.
Local Open Scope Z_scope.

(** ** JavaScript values

    The primitive values the driver computes with.  Numbers are the
    integers (no fractions, infinities or negative zero); [+] on them is
    exact below 2^53, which covers every value the driver builds. *)

Inductive jsval : Type :=
  | JUndefined
  | JNull
  | JBool (b : bool)
  | JNum (z : Z)
  | JNaN.

#[global] Instance jsval_eq_dec : EqDecision jsval.
Proof. solve_decision. Defined.

(** ToNumber: [None] stands for NaN. *)
Definition to_number (v : jsval) : option Z :=
  match v with
  | JUndefined => None
  | JNull => Some 0
  | JBool b => Some (Z.b2z b)
  | JNum z => Some z
  | JNaN => None
  end.

(** ToBoolean, as used by [!x] and [c ? a : b]. *)
Definition truthy (v : jsval) : bool :=
  match v with
  | JUndefined | JNull | JNaN => false
  | JBool b => b
  | JNum z => negb (z =? 0)
  end.

(** Two's-complement wrap to a signed 32-bit integer. *)
Definition wrap32 (z : Z) : Z := (z + 2 ^ 31) mod 2 ^ 32 - 2 ^ 31.

(** ToInt32: NaN becomes 0. *)
Definition to_int32 (v : jsval) : Z :=
  match to_number v with
  | Some z => wrap32 z
  | None => 0
  end.

(** [a << k]: the count is taken modulo 32, the result is an int32. *)
Definition js_shl (a : jsval) (k : Z) : jsval :=
  JNum (wrap32 (Z.shiftl (to_int32 a) (k mod 32))).

(** [a | b] *)
Definition js_or (a b : jsval) : jsval :=
  JNum (wrap32 (Z.lor (to_int32 a) (to_int32 b))).

(** [a + b] on the primitives above (none is a string, so this is the
    numeric addition). *)
Definition js_add (a b : jsval) : jsval :=
  match to_number a, to_number b with
  | Some x, Some y => JNum (x + y)
  | _, _ => JNaN
  end.

(** [a - b] *)
Definition js_sub (a b : jsval) : jsval :=
  match to_number a, to_number b with
  | Some x, Some y => JNum (x - y)
  | _, _ => JNaN
  end.

(** [v == 0]: [undefined] and [null] are loosely equal only to each
    other; booleans and numbers compare as numbers. *)
Definition loose_eq_zero (v : jsval) : bool :=
  match v with
  | JUndefined | JNull | JNaN => false
  | JBool b => negb b
  | JNum z => z =? 0
  end.

(** [a[i]] on an array: reading past the end gives [undefined]. *)
Definition js_index (a : list jsval) (i : nat) : jsval :=
  default JUndefined (a !! i).

(** An element written into a [Buffer]: ToNumber, then the low 8 bits. *)
Definition to_uint8 (v : jsval) : Z :=
  match to_number v with
  | Some z => z mod 256
  | None => 0
  end.

(** ToString of an integer number, as in ["Digit" + n] and property keys. *)
Definition number_to_string (z : Z) : string := pretty z.

(** [parseInt(s, 2)] on a string of binary digits: parsing stops at the
    first character that is not a binary digit. *)
Fixpoint parseInt2_from (acc : Z) (s : string) : Z :=
  match s with
  | String "0"%char s' => parseInt2_from (2 * acc) s'
  | String "1"%char s' => parseInt2_from (2 * acc + 1) s'
  | _ => acc
  end.

Definition parseInt2 (s : string) : Z := parseInt2_from 0 s.

(** ** Register map and font table *)

(** [MAX7219._Registers] *)
Definition _Registers : gmap string Z :=
  list_to_map
    [ ("NoOp", 0x00); ("Digit0", 0x01); ("Digit1", 0x02); ("Digit2", 0x03);
      ("Digit3", 0x04); ("Digit4", 0x05); ("Digit5", 0x06); ("Digit6", 0x07);
      ("Digit7", 0x08); ("DecodeMode", 0x09); ("Intensity", 0x0a);
      ("ScanLimit", 0x0b); ("Shutdown", 0x0c); ("DisplayTest", 0x0f) ].

(** [MAX7219._Registers[key]]: a missing property reads [undefined]. *)
Definition register (key : string) : jsval :=
  default JUndefined (JNum <$> _Registers !! key).

(** [MAX7219._Font]; the escapes ['\!'], ['\''] and ['\.'] of the source
    denote the plain characters. *)
Definition _Font : gmap string Z :=
  list_to_map
    [ ("0", parseInt2 "1111110"); ("1", parseInt2 "0110000");
      ("2", parseInt2 "1101101"); ("3", parseInt2 "1111001");
      ("4", parseInt2 "0110011"); ("5", parseInt2 "1011011");
      ("6", parseInt2 "1011111"); ("7", parseInt2 "1110000");
      ("8", parseInt2 "1111111"); ("9", parseInt2 "1111011");
      ("a", parseInt2 "1110111"); ("b", parseInt2 "0011111");
      ("c", parseInt2 "0001101"); ("d", parseInt2 "0111101");
      ("E", parseInt2 "1001111"); ("e", parseInt2 "1101111");
      ("f", parseInt2 "1000111"); ("g", parseInt2 "1111011");
      ("H", parseInt2 "0110111"); ("h", parseInt2 "0010111");
      ("i", parseInt2 "0010000"); ("j", parseInt2 "0111100");
      ("k", parseInt2 "1010111"); ("l", parseInt2 "0001110");
      ("m", parseInt2 "1110110"); ("n", parseInt2 "0010101");
      ("o", parseInt2 "0011101"); ("p", parseInt2 "1100111");
      ("q", parseInt2 "1110011"); ("r", parseInt2 "0000101");
      ("s", parseInt2 "1011011"); ("t", parseInt2 "0001111");
      ("u", parseInt2 "0011100"); ("v", parseInt2 "0011100");
      ("w", parseInt2 "0011100"); ("x", parseInt2 "0110111");
      ("y", parseInt2 "0111011"); ("z", parseInt2 "1101101");
      ("-", parseInt2 "0000001"); ("_", parseInt2 "0001000");
      ("[", parseInt2 "1001110"); ("(", parseInt2 "1001110");
      ("]", parseInt2 "1111000"); (")", parseInt2 "1111000");
      ("°", parseInt2 "1100011"); ("!", parseInt2 "10100000");
      ("'", parseInt2 "0100000"); (".", parseInt2 "10000000") ].

(** [MAX7219._BLANK] *)
Definition _BLANK : Z := parseInt2 "00000000".

(** [_Font] is an object literal, so its prototype is [Object.prototype]:
    the operator [in] and a property read also see these inherited
    members, all of them functions except [__proto__], an object. *)
Definition Object_prototype : list string :=
  [ "constructor"; "hasOwnProperty"; "isPrototypeOf"; "propertyIsEnumerable";
    "toLocaleString"; "toString"; "valueOf"; "__proto__";
    "__defineGetter__"; "__defineSetter__"; "__lookupGetter__";
    "__lookupSetter__" ].

(** [symbol in MAX7219._Font] *)
Definition in_Font (symbol : string) : bool :=
  bool_decide (is_Some (_Font !! symbol))
  || bool_decide (symbol ∈ Object_prototype).

(** [MAX7219._Font[symbol]], as the operand of [|] that the driver makes
    of it: an own property is its number; an inherited member is a
    function or an object, whose ToNumber is NaN; anything else reads
    [undefined]. *)
Definition Font_get (symbol : string) : jsval :=
  match _Font !! symbol with
  | Some v => JNum v
  | None =>
      if bool_decide (symbol ∈ Object_prototype) then JNaN else JUndefined
  end.

(** ** The SPI transport

    Modelled from the spec: the [spi-device] package is an external
    collaborator of the driver; of its contract the model keeps the set of
    open handles and the messages handed to [transfer], in order.  The
    model follows the transport for as long as the handle it is called on
    is open: what a real transport does with a handle that was closed (it
    refuses a transfer and a second close) and whether it can open a
    device at all are outside it, so a statement about what a call throws
    is made of states whose handle is open. *)

Record handle : Type := Handle {
  h_bus : Z;
  h_device : Z;
  h_fd : nat
}.

#[global] Instance handle_eq_dec : EqDecision handle.
Proof. solve_decision. Defined.

(** The message object [_shiftOut] builds. *)
Record message : Type := Message {
  sendBuffer : list Z;
  receiveBuffer : list Z;
  byteLength : Z;
  speedHz : Z
}.

#[global] Instance message_eq_dec : EqDecision message.
Proof. solve_decision. Defined.

Record spi_device : Type := SpiDevice {
  spi_open : list handle;
  spi_next_fd : nat;
  spi_wire : list (handle * list message)
}.

Definition spi_openSync (bus device : Z) (d : spi_device) : handle * spi_device :=
  let h := Handle bus device (spi_next_fd d) in
  (h, SpiDevice (h :: spi_open d) (S (spi_next_fd d)) (spi_wire d)).

Definition spi_closeSync (h : handle) (d : spi_device) : spi_device :=
  SpiDevice (filter (λ h', h' ≠ h) (spi_open d)) (spi_next_fd d) (spi_wire d).

Definition spi_transfer (h : handle) (msg : list message) (d : spi_device)
  : spi_device :=
  SpiDevice (spi_open d) (spi_next_fd d) (spi_wire d ++ [(h, msg)]).

Definition spi_boot : spi_device := SpiDevice [] 3 [].

(** ** Identifier resolution

    What a name can be bound to, as far as the driver looks at it. *)

Inductive binding : Type :=
  | BValue (v : jsval)
  | BArray (a : list jsval)
  | BFunction (arity : nat)
  | BObject.

(** The bindings of the module: its three constants, the constructor, and
    the parameters of Node's module wrapper. *)
Definition module_scope : gmap string binding :=
  list_to_map
    [ ("fs", BObject); ("SPI", BObject); ("NO_OP", BFunction 0);
      ("MAX7219", BFunction 1);
      ("exports", BObject); ("require", BFunction 1); ("module", BObject);
      ("__filename", BObject); ("__dirname", BObject) ].

(** The properties of Node's global object that the module refers to. *)
Definition node_globals : gmap string binding :=
  list_to_map
    [ ("Buffer", BFunction 3); ("parseInt", BFunction 2) ].

(** The indexed elements of [x]: only an array has any. *)
Definition binding_elements (b : binding) : list jsval :=
  match b with
  | BArray a => a
  | _ => []
  end.

(** ** The controller object and the machine state *)

Record controller : Type := Controller {
  _bus : Z;
  _activeController : Z;
  _totalControllers : Z;
  _decodeModes : option (list jsval);
  _spi : option handle
}.

Record state : Type := State {
  this : controller;
  SPI : spi_device;
  globalThis : gmap string binding
}.

Definition set_activeController (index : Z) (c : controller) : controller :=
  Controller (_bus c) index (_totalControllers c) (_decodeModes c) (_spi c).

Definition set_decodeModes (modes : list jsval) (c : controller) : controller :=
  Controller (_bus c) (_activeController c) (_totalControllers c)
    (Some modes) (_spi c).

Definition set_spi (h : handle) (c : controller) : controller :=
  Controller (_bus c) (_activeController c) (_totalControllers c)
    (_decodeModes c) (Some h).

(** ** Exceptions and the method monad *)

Inductive exn : Type :=
  | Thrown (msg : string)          (* throw "msg" *)
  | ReferenceError (name : string) (* name is not defined *)
  | TypeError (msg : string)
  | RangeError (msg : string).

#[global] Instance exn_eq_dec : EqDecision exn.
Proof. solve_decision. Defined.

(** The outcome of a call: a value or an exception, and in both cases the
    state the call left behind. *)
Inductive result (A : Type) : Type :=
  | Return (a : A) (st : state)
  | Throw (e : exn) (st : state).

Arguments Return {A} a st.
Arguments Throw {A} e st.

Definition M (A : Type) : Type := state → result A.

#[global] Instance M_ret : MRet M := λ A a st, Return a st.

#[global] Instance M_bind : MBind M := λ A B f m st,
  match m st with
  | Return a st' => f a st'
  | Throw e st' => Throw e st'
  end.

Definition throw {A : Type} (e : exn) : M A := λ st, Throw e st.

Definition get : M state := λ st, Return st st.

Definition modify_this (f : controller → controller) : M unit :=
  λ st, Return tt (State (f (this st)) (SPI st) (globalThis st)).

Definition modify_SPI (f : spi_device → spi_device) : M unit :=
  λ st, Return tt (State (this st) (f (SPI st)) (globalThis st)).

(** [SPI.openSync(bus, device)] *)
Definition openSync (bus device : Z) : M handle :=
  λ st, let '(h, d) := spi_openSync bus device (SPI st) in
        Return h (State (this st) d (globalThis st)).

(** [h.closeSync()] *)
Definition closeSync (h : handle) : M unit := modify_SPI (spi_closeSync h).

(** [h.transfer(message, callback)] *)
Definition transfer (h : handle) (msg : list message) : M unit :=
  modify_SPI (spi_transfer h msg).

(** Evaluation of the identifier [x] inside a function whose parameters
    are [locals]: the function scope, then the module scope, then the
    global object; reading a name that none of them binds throws a
    ReferenceError. *)
Definition resolve (locals : list (string * binding)) (x : string) : M binding :=
  st ← get;
  match (list_to_map locals : gmap string binding) !! x with
  | Some b => mret b
  | None =>
      match module_scope !! x with
      | Some b => mret b
      | None =>
          match globalThis st !! x with
          | Some b => mret b
          | None => throw (ReferenceError x)
          end
      end
  end.

(** [x.length]: reading a property of [undefined] or of [null] throws a
    TypeError; a number or a boolean has no such property. *)
Definition binding_length (b : binding) : M jsval :=
  match b with
  | BValue JUndefined | BValue JNull =>
      throw (TypeError "Cannot read properties of undefined")
  | BValue _ | BObject => mret JUndefined
  | BArray a => mret (JNum (Z.of_nat (length a)))
  | BFunction arity => mret (JNum (Z.of_nat arity))
  end.

(** The function is called without a callback. *)
Definition no_callback : string * binding := ("callback", BValue JUndefined).

Definition fails {A : Type} (m : M A) (st : state) : Prop :=
  ∃ e st', m st = Throw e st'.

(** ** The driver *)

(** [function MAX7219(bus, device = 0, count, callback)], run by [new] in
    a world with transport [d] and global object [g].  An omitted argument
    is [None].  [new Buffer(size)] throws a RangeError on a negative size;
    the buffer itself is never used again.  The platform is taken to
    allocate the buffer and the transport to open the device: the
    failures of the two (a size beyond the platform's maximum, a bus or
    device that the transport rejects or cannot open) are outside the
    model, which therefore says when the constructor's own check fails,
    not when construction succeeds. *)
Definition MAX7219 (bus : Z) (device : option Z) (count : option Z)
    (d : spi_device) (g : gmap string binding) : exn + state :=
  let device := default 0 device in
  let total :=
    match count with
    | Some c => if truthy (JNum c) then c else 1
    | None => 1
    end in
  if total * 2 <? 0 then inl (RangeError "size")
  else
    let '(h, d') := spi_openSync bus device d in
    inr (State (Controller bus device total None (Some h)) d' g).

(** [_shiftOut: function(firstByte, secondByte, callback = NO_OP)] *)
Definition _shiftOut (firstByte secondByte : jsval) : M unit :=
  st ← get;
  match _spi (this st) with
  | None => throw (Thrown "SPI device not initialized")
  | Some spi =>
      let message :=
        [ Message [to_uint8 firstByte; to_uint8 secondByte] [0; 0] 2 20000 ] in
      transfer spi message
  end.

(** [encodeByte: function(bits)] *)
Definition encodeByte (bits : list jsval) : M jsval :=
  mret
    (js_add (js_add (js_add (js_add (js_add (js_add (js_add
      (js_index bits 0)
      (js_shl (js_index bits 1) 1))
      (js_shl (js_index bits 2) 2))
      (js_shl (js_index bits 3) 3))
      (js_shl (js_index bits 4) 4))
      (js_shl (js_index bits 5) 5))
      (js_shl (js_index bits 6) 6))
      (js_shl (js_index bits 7) 7)).

(** [setActiveController: function(index)] *)
Definition setActiveController (index : Z) : M unit :=
  st ← get;
  if (index <? 0) || (index >=? _totalControllers (this st)) then
    throw (Thrown "Controller index is out of bounds")
  else
    match _spi (this st) with
    | None => throw (TypeError "Cannot read properties of undefined")
    | Some spi => closeSync spi
    end;;
    bus ← resolve [("index", BValue (JNum index))] "bus";
    match bus with
    | BValue (JNum bus) =>
        spi ← openSync bus index;
        modify_this (set_spi spi);;
        modify_this (set_activeController index)
    | _ => throw (TypeError "incorrect arguments passed to openSync")
    end.

(** [getActiveController: function()] *)
Definition getActiveController : M Z :=
  st ← get; mret (_activeController (this st)).

(** [startup: function(callback)] *)
Definition startup : M unit := _shiftOut (register "Shutdown") (JNum 0x01).

(** [shutdown: function(callback)] *)
Definition shutdown : M unit := _shiftOut (register "Shutdown") (JNum 0x00).

(** [startDisplayTest: function(callback)] *)
Definition startDisplayTest : M unit :=
  _shiftOut (register "DisplayTest") (JNum 0x01).

(** [stopDisplayTest: function(callback)] *)
Definition stopDisplayTest : M unit :=
  _shiftOut (register "DisplayTest") (JNum 0x00).

(** [setDecodeMode: function(modes, callback)].  The controller keeps the
    caller's array itself; the model stores its contents, that is, it
    takes the caller not to change the array afterwards. *)
Definition setDecodeMode (modes : list jsval) : M unit :=
  if negb (Z.of_nat (length modes) =? 8) then
    throw (Thrown "Invalid decode mode array")
  else
    modify_this (set_decodeModes modes);;
    byte ← encodeByte modes;
    _shiftOut (register "DecodeMode") byte.

(** [setDecodeNone: function(callback)] *)
Definition setDecodeNone : M unit :=
  setDecodeMode (JNum <$> [0; 0; 0; 0; 0; 0; 0; 0]).

(** [setDecodeAll: function(callback)] *)
Definition setDecodeAll : M unit :=
  setDecodeMode (JNum <$> [1; 1; 1; 1; 1; 1; 1; 1]).

(** [setDigitSegmentsByte: function(n, byte, callback)] *)
Definition setDigitSegmentsByte (n : Z) (byte : jsval) : M unit :=
  _shiftOut (register ("Digit" +:+ number_to_string n)) byte.

(** [setDigitSegments: function(n, segment, callback)]: the parameter is
    called [segment], the body reads [segments]. *)
Definition setDigitSegments (n : Z) (segment : list jsval) : M unit :=
  if (n <? 0) || (n >? 7) then throw (Thrown "Invalid digit number")
  else
    segments ← resolve
      [("n", BValue (JNum n)); ("segment", BArray segment); no_callback]
      "segments";
    len ← binding_length segments;
    match len with
    | JNum 8 =>
        byte ← encodeByte (binding_elements segments);
        setDigitSegmentsByte n byte
    | _ => throw (Thrown "Invalid segments array")
    end.

(** [setDigitSymbol: function(n, symbol, dp, callback)]; [symbol] is the
    property key the argument converts to. *)
Definition setDigitSymbol (n : Z) (symbol : string) (dp : jsval) : M unit :=
  if (n <? 0) || (n >? 7) then throw (Thrown "Invalid digit number")
  else
    let hexSymbol :=
      if negb (in_Font symbol) then JNum _BLANK else Font_get symbol in
    let byte := js_or hexSymbol (if truthy dp then js_shl (JNum 1) 7 else JNum 0) in
    _shiftOut (register ("Digit" +:+ number_to_string n)) byte.

(** [for (var i = start; i < start + count; i++) body(i)] *)
Fixpoint for_loop (count : nat) (i : nat) (body : nat → M unit) : M unit :=
  match count with
  | O => mret tt
  | S count' => body i;; for_loop count' (S i) body
  end.

(** The body of the loop of [clearDisplay] at digit [i]. *)
Definition clearDisplay_body (modes : list jsval) (i : nat) : M unit :=
  let mode := js_index modes i in
  if loose_eq_zero mode then setDigitSegmentsByte (Z.of_nat i) (JNum 0x00)
  else setDigitSymbol (Z.of_nat i) " " (JBool false).

(** [clearDisplay: function(callback)].  The loop bound
    [this._decodeModes.length] is read once: the body does not assign
    [_decodeModes]. *)
Definition clearDisplay : M unit :=
  st ← get;
  (if negb (bool_decide (is_Some (_decodeModes (this st))))
   then setDecodeNone else mret tt);;
  st ← get;
  match _decodeModes (this st) with
  | None => throw (TypeError "Cannot read properties of undefined")
  | Some modes => for_loop (length modes) 0 (clearDisplay_body modes)
  end.

(** [setDisplayIntensity: function(brightness, callback)] *)
Definition setDisplayIntensity (brightness : Z) : M unit :=
  if (brightness <? 0) || (brightness >? 15) then
    throw (Thrown "Invalid brightness number")
  else _shiftOut (register "Intensity") (JNum brightness).

(** [setScanLimit: function(limit, callback)] *)
Definition setScanLimit (limit : Z) : M unit :=
  if (limit <? 1) || (limit >? 8) then
    throw (Thrown "Invalid scan limit number")
  else _shiftOut (register "ScanLimit") (js_sub (JNum limit) (JNum 1)).

(** ** Vocabulary of the statements *)

(** The message that carries the frame (register, data). *)
Definition frame (reg data : Z) : list message :=
  [ Message [reg; data] [0; 0] 2 20000 ].

(** The state after the frames [fs] were handed, in order, to handle [h]. *)
Definition sent (h : handle) (fs : list (Z * Z)) (st : state) : state :=
  State (this st)
    (SpiDevice (spi_open (SPI st)) (spi_next_fd (SPI st))
       (spi_wire (SPI st) ++ ((λ f, (h, frame f.1 f.2)) <$> fs)))
    (globalThis st).

(** The state after [this._decodeModes = modes]. *)
Definition with_decodeModes (modes : list jsval) (st : state) : state :=
  State (set_decodeModes modes (this st)) (SPI st) (globalThis st).

(** The font-table value of a symbol, the all-off pattern on a miss. *)
Definition lookup (symbol : string) : Z := default 0 (_Font !! symbol).

(** The value [encodeByte] returns (it neither reads nor writes the state). *)
Definition byte_of (bits : list jsval) : jsval :=
  match encodeByte bits (State (Controller 0 0 1 None None) spi_boot ∅) with
  | Return v _ => v
  | Throw _ _ => JUndefined
  end.

(** A bit as the driver's callers write it: the number 0 or 1. *)
Definition jsbit (b : bool) : jsval := JNum (Z.b2z b).

(** All boolean sequences of a given length. *)
Fixpoint bit_vectors (n : nat) : list (list bool) :=
  match n with
  | O => [[]]
  | S n' => (cons false <$> bit_vectors n') ++ (cons true <$> bit_vectors n')
  end.

(** The bits of [z], least significant first. *)
Definition bits_of (z : Z) : list bool :=
  (λ i : nat, Z.testbit z (Z.of_nat i)) <$> seq 0 8.

(** Checker: [encodeByte] puts element [i] at bit [i], and reads the
    booleans [true]/[false] like the numbers 1/0. *)
Definition packs_lsb_first (bs : list bool) : bool :=
  match byte_of (jsbit <$> bs) with
  | JNum z =>
      (0 <=? z) && (z <? 256)
      && forallb (λ i : nat,
           Bool.eqb (Z.testbit z (Z.of_nat i)) (default false (bs !! i)))
           (seq 0 8)
      && bool_decide (byte_of (JBool <$> bs) = JNum z)
  | _ => false
  end.

(** The first handle the transport gives out after boot. *)
Definition first_handle : handle := Handle 0 0 3.

(** The state a fresh process reaches with [new MAX7219(0, 0, 2)]
    (lemma [two_chips_constructed]). *)
Definition two_chips : state :=
  State (Controller 0 0 2 None (Some first_handle))
    (SpiDevice [first_handle] 4 []) node_globals.

(** The decode-mode vector, once set, has eight entries. *)
Definition decode_wf (st : state) : Prop :=
  match _decodeModes (this st) with
  | Some modes => length modes = 8%nat
  | None => True
  end.

(** The calls an application can make on a controller. *)
Inductive call : Type :=
  | CallSetActiveController (index : Z)
  | CallStartup
  | CallShutdown
  | CallStartDisplayTest
  | CallStopDisplayTest
  | CallSetDecodeMode (modes : list jsval)
  | CallSetDecodeNone
  | CallSetDecodeAll
  | CallSetDigitSegments (n : Z) (segments : list jsval)
  | CallSetDigitSegmentsByte (n : Z) (byte : jsval)
  | CallSetDigitSymbol (n : Z) (symbol : string) (dp : jsval)
  | CallClearDisplay
  | CallSetDisplayIntensity (brightness : Z)
  | CallSetScanLimit (limit : Z).

Definition run_call (c : call) : M unit :=
  match c with
  | CallSetActiveController index => setActiveController index
  | CallStartup => startup
  | CallShutdown => shutdown
  | CallStartDisplayTest => startDisplayTest
  | CallStopDisplayTest => stopDisplayTest
  | CallSetDecodeMode modes => setDecodeMode modes
  | CallSetDecodeNone => setDecodeNone
  | CallSetDecodeAll => setDecodeAll
  | CallSetDigitSegments n segments => setDigitSegments n segments
  | CallSetDigitSegmentsByte n byte => setDigitSegmentsByte n byte
  | CallSetDigitSymbol n symbol dp => setDigitSymbol n symbol dp
  | CallClearDisplay => clearDisplay
  | CallSetDisplayIntensity brightness => setDisplayIntensity brightness
  | CallSetScanLimit limit => setScanLimit limit
  end.

(** The state a call leaves behind, whether it returns or throws. *)
Definition state_after {A : Type} (r : result A) : state :=
  match r with
  | Return _ st => st
  | Throw _ st => st
  end.

(** A session: calls one after the other, where the application catches
    what a call throws and goes on. *)
Definition run_session (cs : list call) (st : state) : state :=
  foldl (λ st c, state_after (run_call c st)) st cs.

(** The eight digit frames of a cleared display. *)
Definition blank_frames : list (Z * Z) :=
  (λ i : nat, (Z.of_nat i + 1, 0)) <$> seq 0 8.

(** The vectors the two shortcuts store. *)
Definition all_decode : list jsval := JNum <$> [1; 1; 1; 1; 1; 1; 1; 1].
Definition no_decode : list jsval := JNum <$> [0; 0; 0; 0; 0; 0; 0; 0].



(** The eight elements [encodeByte] reads, [undefined] where the input has
    none. *)
Definition first_eight (bits : list jsval) : list jsval :=
  js_index bits <$> seq 0 8.

(** A sequence of seven bits. *)
Definition seven_bits : list jsval := JNum <$> [1; 0; 1; 0; 1; 0; 1].

(** The two invariants of a constructed controller: it holds a handle, and
    its decode-mode vector, once set, has eight entries. *)
Definition controller_ok (st : state) : Prop :=
  is_Some (_spi (this st)) ∧ decode_wf st.

(** The controller owns exactly one transport handle: the one in [_spi]
    is open, and no other is. *)
Definition owns_one_handle (st : state) : Prop :=
  ∃ h, _spi (this st) = Some h ∧ spi_open (SPI st) = [h].

(** A method keeps the invariant [I], whether it returns or throws. *)
Definition preserves (I : state → Prop) {A : Type} (m : M A) : Prop :=
  ∀ st, I st → I (state_after (m st)).

(** The state after [h.transfer(msg, callback)]. *)
Definition transferred (h : handle) (msg : list message) (st : state) : state :=
  State (this st) (spi_transfer h msg (SPI st)) (globalThis st).

(** The call re-selects the active controller with an index in range. *)
Definition reselects (st : state) (c : call) : Prop :=
  match c with
  | CallSetActiveController index => 0 ≤ index < _totalControllers (this st)
  | _ => False
  end.

(** ** Vocabulary of the further properties *)

(** A transfer as the driver issues it: one message, which carries a
    frame whose address byte is an address of the register map and whose
    data is a byte. *)
Definition frame_ok (t : handle * list message) : Prop :=
  ∃ name reg data,
    _Registers !! name = Some reg ∧ 0 ≤ data < 256 ∧ t.2 = frame reg data.

Definition wire_ok (st : state) : Prop := Forall frame_ok (spi_wire (SPI st)).

(** The state after [h.closeSync()]. *)
Definition closed (h : handle) (st : state) : state :=
  State (this st) (spi_closeSync h (SPI st)) (globalThis st).

(** The state after the last three statements of [setActiveController],
    were [bus] to resolve to the number [bus]. *)
Definition reselected (bus index : Z) (st : state) : state :=
  let '(h, d) := spi_openSync bus index (SPI st) in
  State (set_activeController index (set_spi h (this st))) d (globalThis st).

(** The names [MAX7219.prototype] defines. *)
Definition prototype_methods : list string :=
  [ "setActiveController"; "getActiveController"; "startup"; "shutdown";
    "startDisplayTest"; "stopDisplayTest"; "setDecodeMode"; "setDecodeNone";
    "setDecodeAll"; "setDigitSegments"; "setDigitSegmentsByte";
    "setDigitSymbol"; "clearDisplay"; "setDisplayIntensity"; "setScanLimit";
    "encodeByte"; "_shiftOut" ].

(** [disp[name]] is a function: the prototype defines it, or
    [Object.prototype] does ([__proto__] there is an object). *)
Definition has_method (name : string) : bool :=
  bool_decide (name ∈ prototype_methods)
  || bool_decide (name ∈ Object_prototype) && negb (String.eqb name "__proto__").

(** [disp[name](...)], where [body] is the call of the function the
    property holds; calling what is not a function throws a TypeError. *)
Definition invoke (name : string) (body : M unit) : M unit :=
  if has_method name then body
  else throw (TypeError ("disp." +:+ name +:+ " is not a function")).

(** The three calls every example script makes on its new controller:
    [disp.setScanLimit(8); disp.startup(); disp.clearDisplay();] *)
Definition example_setup : M unit := setScanLimit 8;; startup;; clearDisplay.

(** The script that ends in [disp.setText(name)]; no function of that
    name exists, so there is no body to run. *)
Definition script_setText : M unit :=
  example_setup;; invoke "setText" (mret tt).

(** The script that ends in [disp.showMessage("Hello, everyone", 250)]. *)
Definition script_showMessage : M unit :=
  example_setup;; invoke "showMessage" (mret tt).

(** A script: [const disp = new max7219(0)], then its statements. *)
Definition run_script (script : M unit) (d : spi_device)
    (g : gmap string binding) : exn + result unit :=
  match MAX7219 0 None None d g with
  | inl e => inl e
  | inr st => inr (script st)
  end.

(** The exceptions of the driver itself: the six validation messages, and
    the ReferenceError of the two names that nothing binds. *)
Definition expected_exn (e : exn) : bool :=
  match e with
  | Thrown msg =>
      bool_decide (msg ∈ [ "Controller index is out of bounds";
                           "Invalid decode mode array"; "Invalid digit number";
                           "Invalid segments array"; "Invalid brightness number";
                           "Invalid scan limit number" ])
  | ReferenceError x => bool_decide (x ∈ ["bus"; "segments"])
  | TypeError _ | RangeError _ => false
  end.

(** The handle in [_spi] is open. *)
Definition handle_open (st : state) : Prop :=
  ∃ h, _spi (this st) = Some h ∧ h ∈ spi_open (SPI st).

(** Checker: the font has a pattern for the decimal digit [d], not blank,
    within seven bits, and no other decimal digit has the same. *)
Definition digit_pattern_ok (d : Z) : bool :=
  match _Font !! number_to_string d with
  | Some v =>
      (0 <? v) && (v <? 128)
      && forallb (λ d', (d' =? d)
                        || negb (bool_decide
                                   (_Font !! number_to_string d' = Some v)))
           (seqZ 0 10)
  | None => false
  end.

(** * Properties *)

(** ** Basic facts about the monad and the transfer primitive *)

Lemma bind_Return {A B : Type} (m : M A) (k : A → M B) st a st' :
  m st = Return a st' → (m ≫= k) st = k a st'.
Proof. intros H. unfold mbind, M_bind. by rewrite H. Qed.

Lemma bind_Throw {A B : Type} (m : M A) (k : A → M B) st e st' :
  m st = Throw e st' → (m ≫= k) st = Throw e st'.
Proof. intros H. unfold mbind, M_bind. by rewrite H. Qed.

Lemma two_chips_constructed :
  MAX7219 0 (Some 0) (Some 2) spi_boot node_globals = inr two_chips.
Proof. reflexivity. Qed.

Lemma sent_nil h st : sent h [] st = st.
Proof.
  destruct st as [c [o n w] g]. unfold sent; simpl. by rewrite app_nil_r.
Qed.

Lemma sent_sent h fs1 fs2 st :
  sent h fs2 (sent h fs1 st) = sent h (fs1 ++ fs2) st.
Proof. unfold sent; simpl. by rewrite fmap_app, app_assoc. Qed.

Lemma shiftOut_sent st h a b :
  _spi (this st) = Some h →
  _shiftOut a b st = Return tt (sent h [(to_uint8 a, to_uint8 b)] st).
Proof.
  intros H. unfold _shiftOut, mbind, M_bind, get. simpl. by rewrite H.
Qed.

Lemma shiftOut_closed st a b :
  _spi (this st) = None →
  _shiftOut a b st = Throw (Thrown "SPI device not initialized") st.
Proof.
  intros H. unfold _shiftOut, mbind, M_bind, get. simpl. by rewrite H.
Qed.

Lemma digit_index_cases (n : Z) :
  0 ≤ n ≤ 7 →
  n = 0 ∨ n = 1 ∨ n = 2 ∨ n = 3 ∨ n = 4 ∨ n = 5 ∨ n = 6 ∨ n = 7.
Proof. lia. Qed.

Lemma register_digit (n : Z) :
  0 ≤ n ≤ 7 → register ("Digit" +:+ number_to_string n) = JNum (n + 1).
Proof.
  intros H. destruct (digit_index_cases n H) as [-> | [-> | [-> | [-> | [-> | [-> | [-> | ->]]]]]]];
    by vm_compute.
Qed.

Lemma digit_guard_in (n : Z) : 0 ≤ n ≤ 7 → (n <? 0) || (n >? 7) = false.
Proof. intros H. apply orb_false_iff. split; lia. Qed.

Lemma digit_guard_out (n : Z) : ¬ 0 ≤ n ≤ 7 → (n <? 0) || (n >? 7) = true.
Proof. intros H. apply orb_true_iff. lia. Qed.

Lemma font_bytes :
  map_Forall (λ _ v,
    to_uint8 (js_or (JNum v) (JNum 128)) = Z.lor v 128
    ∧ to_uint8 (js_or (JNum v) (JNum 0)) = Z.lor v 0) _Font.
Proof. apply (bool_decide_unpack _). by vm_compute. Qed.

(** ** Digit writes *)

Lemma digit_register_byte (n : Z) :
  0 ≤ n ≤ 7 → to_uint8 (register ("Digit" +:+ number_to_string n)) = n + 1.
Proof.
  intros H. rewrite register_digit by done. unfold to_uint8; simpl.
  apply Z.mod_small. lia.
Qed.

Lemma setDigitSegmentsByte_sent st h n byte :
  _spi (this st) = Some h → 0 ≤ n ≤ 7 →
  setDigitSegmentsByte n byte st = Return tt (sent h [(n + 1, to_uint8 byte)] st).
Proof.
  intros Hspi Hn. unfold setDigitSegmentsByte.
  rewrite (shiftOut_sent _ h) by done. by rewrite digit_register_byte.
Qed.

Lemma symbol_byte (symbol : string) (dp : jsval) :
  to_uint8
    (js_or (if negb (in_Font symbol) then JNum _BLANK else Font_get symbol)
       (if truthy dp then js_shl (JNum 1) 7 else JNum 0))
  = Z.lor (lookup symbol) (if truthy dp then 0x80 else 0).
Proof.
  unfold in_Font, Font_get, lookup.
  destruct (_Font !! symbol) as [v|] eqn:Hv; simpl.
  - destruct (font_bytes _ _ Hv) as [Hon Hoff].
    destruct (truthy dp); [exact Hon | exact Hoff].
  - destruct (bool_decide (symbol ∈ Object_prototype)); destruct (truthy dp);
      by vm_compute.
Qed.

Lemma setDigitSymbol_sent st h n symbol dp :
  _spi (this st) = Some h → 0 ≤ n ≤ 7 →
  setDigitSymbol n symbol dp st
  = Return tt
      (sent h [(n + 1, Z.lor (lookup symbol) (if truthy dp then 0x80 else 0))] st).
Proof.
  intros Hspi Hn. unfold setDigitSymbol. rewrite digit_guard_in by done.
  rewrite (shiftOut_sent _ h) by done.
  by rewrite digit_register_byte, symbol_byte.
Qed.

Lemma setDigitSymbol_out_of_range st n symbol dp :
  ¬ 0 ≤ n ≤ 7 →
  setDigitSymbol n symbol dp st = Throw (Thrown "Invalid digit number") st.
Proof. intros Hn. unfold setDigitSymbol. by rewrite digit_guard_out. Qed.

(** C5: with a handle in place, [setDigitSymbol(n, symbol, dp)] for a
    digit index [n] in [0,7] sends to digit register [n] (address [n+1])
    the font-table value of [symbol], 0 when the table has no such entry,
    OR'd with 0x80 exactly when [dp] is truthy, whatever the symbol; for
    any other [n] it throws "Invalid digit number" and sends nothing.
    In particular [setDigitSymbol(3, '9', true)] sends [Font['9'] | 0x80]
    to Digit3. *)
Theorem setDigitSymbol_writes_font_value st h n symbol dp
    (Hspi : _spi (this st) = Some h) :
  (0 ≤ n ≤ 7 →
     setDigitSymbol n symbol dp st
     = Return tt
         (sent h [(n + 1, Z.lor (lookup symbol) (if truthy dp then 0x80 else 0))]
            st))
  ∧ (_Font !! symbol = None → lookup symbol = 0)
  ∧ (¬ 0 ≤ n ≤ 7 →
     setDigitSymbol n symbol dp st = Throw (Thrown "Invalid digit number") st)
  ∧ (fails (setDigitSymbol n symbol dp) st ↔ ¬ 0 ≤ n ≤ 7)
  ∧ (∃ font9, _Font !! "9" = Some font9
       ∧ setDigitSymbol 3 "9" (JBool true) st
         = Return tt (sent h [(0x04, Z.lor font9 0x80)] st)).
Proof.
  split; [by apply setDigitSymbol_sent |].
  split; [intros Hmiss; unfold lookup; by rewrite Hmiss |].
  split; [by apply setDigitSymbol_out_of_range |].
  split.
  - split.
    + intros (e & st' & Hthrow) Hn.
      rewrite (setDigitSymbol_sent _ h) in Hthrow by done. discriminate.
    + intros Hn. eexists _, _. by apply setDigitSymbol_out_of_range.
  - exists (parseInt2 "1111011"). split; [by vm_compute |].
    rewrite (setDigitSymbol_sent _ h) by (done || lia). reflexivity.
Qed.

Lemma setDigitSymbol_writes_font_value_witness :
  _spi (this two_chips) = Some first_handle
  ∧ setDigitSymbol 3 "9" (JBool true) two_chips
    = Return tt (sent first_handle [(4, 251)] two_chips)
  ∧ setDigitSymbol 5 "?" JUndefined two_chips
    = Return tt (sent first_handle [(6, 0)] two_chips)
  ∧ setDigitSymbol 8 "9" (JBool true) two_chips
    = Throw (Thrown "Invalid digit number") two_chips.
Proof.
  split; [reflexivity |]. split; [| split].
  - destruct (setDigitSymbol_writes_font_value two_chips first_handle 3 "9"
                (JBool true) eq_refl) as (Hin & _).
    rewrite Hin by lia. reflexivity.
  - destruct (setDigitSymbol_writes_font_value two_chips first_handle 5 "?"
                JUndefined eq_refl) as (Hin & _).
    rewrite Hin by lia. reflexivity.
  - destruct (setDigitSymbol_writes_font_value two_chips first_handle 8 "9"
                (JBool true) eq_refl) as (_ & _ & Hout & _).
    apply Hout. lia.
Defined.

(** ** Decode mode *)

Lemma encodeByte_pure bits st : encodeByte bits st = Return (byte_of bits) st.
Proof. reflexivity. Qed.

Lemma length_guard_eq (modes : list jsval) :
  length modes = 8%nat → negb (Z.of_nat (length modes) =? 8) = false.
Proof. intros ->. reflexivity. Qed.

Lemma length_guard_ne (modes : list jsval) :
  length modes ≠ 8%nat → negb (Z.of_nat (length modes) =? 8) = true.
Proof. intros H. apply negb_true_iff, Z.eqb_neq. lia. Qed.

Lemma setDecodeMode_rejects st modes :
  length modes ≠ 8%nat →
  setDecodeMode modes st = Throw (Thrown "Invalid decode mode array") st.
Proof. intros H. unfold setDecodeMode. by rewrite length_guard_ne. Qed.

Lemma setDecodeMode_sent st h modes :
  _spi (this st) = Some h → length modes = 8%nat →
  setDecodeMode modes st
  = Return tt
      (sent h [(0x09, to_uint8 (byte_of modes))] (with_decodeModes modes st)).
Proof.
  intros Hspi Hlen. unfold setDecodeMode. rewrite length_guard_eq by done.
  unfold mbind, M_bind, modify_this; simpl.
  by rewrite (shiftOut_sent _ h).
Qed.

(** C7: [setDecodeMode] with a vector whose length is not 8 (seven
    elements, say) throws "Invalid decode mode array" and leaves the state
    as it was: nothing is handed to the bus and the stored vector is not
    touched.  [setDecodeMode([1,0,1,0,1,0,1,0])] returns, stores the vector
    and sends data byte 0x55 to the DecodeMode register (0x09). *)
Theorem setDecodeMode_length_check st h modes
    (Hspi : _spi (this st) = Some h) (Hlen : length modes ≠ 8%nat) :
  setDecodeMode modes st = Throw (Thrown "Invalid decode mode array") st
  ∧ spi_wire (SPI (state_after (setDecodeMode modes st))) = spi_wire (SPI st)
  ∧ setDecodeMode (JNum <$> [1; 0; 1; 0; 1; 0; 1; 0]) st
    = Return tt
        (sent h [(0x09, 0x55)]
           (with_decodeModes (JNum <$> [1; 0; 1; 0; 1; 0; 1; 0]) st)).
Proof.
  split; [by apply setDecodeMode_rejects |].
  split; [by rewrite setDecodeMode_rejects |].
  by rewrite (setDecodeMode_sent _ h).
Qed.

Lemma setDecodeMode_length_check_witness :
  _spi (this two_chips) = Some first_handle
  ∧ length (JNum <$> [1; 0; 1; 0; 1; 0; 1]) ≠ 8%nat
  ∧ setDecodeMode (JNum <$> [1; 0; 1; 0; 1; 0; 1]) two_chips
    = Throw (Thrown "Invalid decode mode array") two_chips
  ∧ spi_wire (SPI (state_after
        (setDecodeMode (JNum <$> [1; 0; 1; 0; 1; 0; 1; 0]) two_chips)))
    = [(first_handle, frame 9 85)].
Proof.
  assert (Hlen : length (JNum <$> [1; 0; 1; 0; 1; 0; 1]) ≠ 8%nat)
    by (simpl; lia).
  destruct (setDecodeMode_length_check two_chips first_handle
              (JNum <$> [1; 0; 1; 0; 1; 0; 1]) eq_refl Hlen)
    as (Hthrow & _ & Hsend).
  split; [reflexivity |]. split; [exact Hlen |]. split; [exact Hthrow |].
  rewrite Hsend. reflexivity.
Defined.

(** ** Controller selection *)

Lemma index_guard_out (index total : Z) :
  ¬ 0 ≤ index < total → (index <? 0) || (index >=? total) = true.
Proof. intros H. apply orb_true_iff. lia. Qed.

Lemma index_guard_in (index total : Z) :
  0 ≤ index < total → (index <? 0) || (index >=? total) = false.
Proof. intros H. apply orb_false_iff. lia. Qed.

(** C8: for every index outside [0, totalControllers), in particular
    every index >= totalControllers, [setActiveController] throws
    "Controller index is out of bounds" and leaves the whole state as it
    was: the handle in [_spi] is the same and still open, nothing was
    opened or closed, and the active address is unchanged. *)
Theorem setActiveController_out_of_bounds st index
    (Hout : ¬ 0 ≤ index < _totalControllers (this st)) :
  setActiveController index st
  = Throw (Thrown "Controller index is out of bounds") st
  ∧ _spi (this (state_after (setActiveController index st))) = _spi (this st)
  ∧ spi_open (SPI (state_after (setActiveController index st)))
    = spi_open (SPI st)
  ∧ _activeController (this (state_after (setActiveController index st)))
    = _activeController (this st).
Proof.
  assert (H : setActiveController index st
              = Throw (Thrown "Controller index is out of bounds") st).
  { unfold setActiveController, mbind, M_bind, get.
    by rewrite index_guard_out. }
  by rewrite H.
Qed.

Lemma setActiveController_out_of_bounds_witness :
  ¬ 0 ≤ 2 < _totalControllers (this two_chips)
  ∧ setActiveController 2 two_chips
    = Throw (Thrown "Controller index is out of bounds") two_chips
  ∧ spi_open (SPI (state_after (setActiveController (-1) two_chips)))
    = [first_handle].
Proof.
  assert (H2 : ¬ 0 ≤ 2 < _totalControllers (this two_chips))
    by (simpl; lia).
  assert (Hm : ¬ 0 ≤ -1 < _totalControllers (this two_chips))
    by (simpl; lia).
  split; [exact H2 |]. split.
  - exact (proj1 (setActiveController_out_of_bounds two_chips 2 H2)).
  - destruct (setActiveController_out_of_bounds two_chips (-1) Hm)
      as (_ & _ & Hopen & _).
    rewrite Hopen. reflexivity.
Defined.

(** ** Scan limit *)

Lemma scan_guard_in (limit : Z) : 1 ≤ limit ≤ 8 → (limit <? 1) || (limit >? 8) = false.
Proof. intros H. apply orb_false_iff. lia. Qed.

Lemma scan_guard_out (limit : Z) : ¬ 1 ≤ limit ≤ 8 → (limit <? 1) || (limit >? 8) = true.
Proof. intros H. apply orb_true_iff. lia. Qed.

(** C9: [setScanLimit(limit)] throws "Invalid scan limit number" for
    every limit outside [1,8], 0 and 9 among them, sending nothing; for
    every limit in [1,8] it sends data byte [limit - 1] to the ScanLimit
    register (0x0b): 0x00 for limit 1 and 0x07 for limit 8. *)
Theorem setScanLimit_writes_limit_minus_one st h limit
    (Hspi : _spi (this st) = Some h) :
  (1 ≤ limit ≤ 8 →
     setScanLimit limit st = Return tt (sent h [(0x0b, limit - 1)] st))
  ∧ (¬ 1 ≤ limit ≤ 8 →
     setScanLimit limit st = Throw (Thrown "Invalid scan limit number") st)
  ∧ setScanLimit 1 st = Return tt (sent h [(0x0b, 0x00)] st)
  ∧ setScanLimit 8 st = Return tt (sent h [(0x0b, 0x07)] st)
  ∧ setScanLimit 0 st = Throw (Thrown "Invalid scan limit number") st
  ∧ setScanLimit 9 st = Throw (Thrown "Invalid scan limit number") st.
Proof.
  assert (Hin : ∀ l, 1 ≤ l ≤ 8 →
    setScanLimit l st = Return tt (sent h [(0x0b, l - 1)] st)).
  { intros l Hl. unfold setScanLimit. rewrite scan_guard_in by done.
    rewrite (shiftOut_sent _ h) by done.
    replace (to_uint8 (js_sub (JNum l) (JNum 1))) with (l - 1); [done |].
    unfold to_uint8; simpl. symmetry. apply Z.mod_small. lia. }
  assert (Hout : ∀ l, ¬ 1 ≤ l ≤ 8 →
    setScanLimit l st = Throw (Thrown "Invalid scan limit number") st).
  { intros l Hl. unfold setScanLimit. by rewrite scan_guard_out. }
  split; [exact (Hin limit) |]. split; [exact (Hout limit) |].
  split; [apply (Hin 1); lia |]. split; [apply (Hin 8); lia |].
  split; apply Hout; lia.
Qed.

Lemma setScanLimit_writes_limit_minus_one_witness :
  _spi (this two_chips) = Some first_handle
  ∧ setScanLimit 3 two_chips = Return tt (sent first_handle [(11, 2)] two_chips)
  ∧ setScanLimit 12 two_chips
    = Throw (Thrown "Invalid scan limit number") two_chips.
Proof.
  destruct (setScanLimit_writes_limit_minus_one two_chips first_handle 3 eq_refl)
    as (Hin & _).
  destruct (setScanLimit_writes_limit_minus_one two_chips first_handle 12 eq_refl)
    as (_ & Hout & _).
  split; [reflexivity |]. split; [apply Hin; lia | apply Hout; lia].
Defined.

(** ** Clearing the display *)

Lemma for_loop_sent h (f : nat → Z * Z) (body : nat → M unit) count :
  ∀ start st,
    (∀ i st', (start ≤ i < start + count)%nat → _spi (this st') = Some h →
       body i st' = Return tt (sent h [f i] st')) →
    _spi (this st) = Some h →
    for_loop count start body st = Return tt (sent h (f <$> seq start count) st).
Proof.
  induction count as [| count IH]; intros start st Hbody Hspi.
  - simpl. by rewrite sent_nil.
  - simpl. rewrite (bind_Return _ _ st tt (sent h [f start] st)).
    + rewrite IH.
      * by rewrite sent_sent.
      * intros i st' Hi Hspi'. apply Hbody; [lia | done].
      * done.
    + apply Hbody; [lia | done].
Qed.

Lemma clearDisplay_body_sent st h modes (i : nat) :
  _spi (this st) = Some h → (i < 8)%nat →
  clearDisplay_body modes i st = Return tt (sent h [(Z.of_nat i + 1, 0)] st).
Proof.
  intros Hspi Hi. unfold clearDisplay_body.
  destruct (loose_eq_zero (js_index modes i)).
  - by rewrite (setDigitSegmentsByte_sent _ h) by (done || lia).
  - by rewrite (setDigitSymbol_sent _ h) by (done || lia).
Qed.

Lemma clearDisplay_set st h modes :
  _spi (this st) = Some h → _decodeModes (this st) = Some modes →
  length modes = 8%nat →
  clearDisplay st = Return tt (sent h blank_frames st).
Proof.
  intros Hspi Hmodes Hlen. unfold clearDisplay.
  rewrite (bind_Return get _ st st st) by done.
  rewrite Hmodes. simpl negb. cbv iota.
  rewrite (bind_Return (mret tt) _ st tt st) by done.
  rewrite (bind_Return get _ st st st) by done.
  rewrite Hmodes, Hlen.
  apply (for_loop_sent h (λ i : nat, (Z.of_nat i + 1, 0))); [| done].
  intros i st' Hi Hspi'. apply clearDisplay_body_sent; [done | lia].
Qed.

Lemma decodeModes_stored h fs modes st :
  _decodeModes (this (sent h fs (with_decodeModes modes st))) = Some modes.
Proof. reflexivity. Qed.

Lemma clearDisplay_unset st h :
  _spi (this st) = Some h → _decodeModes (this st) = None →
  clearDisplay st
  = Return tt
      (sent h ((0x09, 0x00) :: blank_frames)
         (with_decodeModes (JNum <$> [0; 0; 0; 0; 0; 0; 0; 0]) st)).
Proof.
  intros Hspi Hmodes. unfold clearDisplay.
  rewrite (bind_Return get _ st st st) by done.
  rewrite Hmodes. simpl negb. cbv iota.
  erewrite bind_Return; [| unfold setDecodeNone; by apply (setDecodeMode_sent _ h)].
  erewrite bind_Return; [| reflexivity].
  rewrite decodeModes_stored.
  erewrite (for_loop_sent h (λ i : nat, (Z.of_nat i + 1, 0))); [| | done].
  - rewrite sent_sent. reflexivity.
  - intros i st' Hi Hspi'. apply clearDisplay_body_sent; [done | simpl in Hi; lia].
Qed.






(** C10: on a controller whose decode-mode vector was never set,
    [clearDisplay()] first sends a DecodeMode frame (register 0x09) with
    data byte 0x00, through [setDecodeNone], then the eight digit frames,
    and leaves the all-no-decode vector stored; on a controller whose
    vector is set (eight entries), it sends the eight digit frames, to
    registers 0x01..0x08, and no DecodeMode frame, and leaves the vector as
    it is. *)
Theorem clearDisplay_implicit_decode_none st h
    (Hspi : _spi (this st) = Some h) :
  (_decodeModes (this st) = None →
     setDecodeNone st
     = Return tt (sent h [(0x09, 0x00)] (with_decodeModes no_decode st))
     ∧ clearDisplay st
       = (setDecodeNone;; for_loop 8 0 (clearDisplay_body no_decode)) st
     ∧ clearDisplay st
       = Return tt
           (sent h ((0x09, 0x00) :: blank_frames)
              (with_decodeModes no_decode st))
     ∧ spi_wire (SPI (state_after (clearDisplay st)))
       = (spi_wire (SPI st)
          ++ (h, frame 0x09 0x00)
             :: ((λ i : nat, (h, frame (Z.of_nat i + 1) 0x00)) <$> seq 0 8))%list
     ∧ _decodeModes (this (state_after (clearDisplay st))) = Some no_decode)
  ∧ (∀ modes, _decodeModes (this st) = Some modes → length modes = 8%nat →
     clearDisplay st = Return tt (sent h blank_frames st)
     ∧ spi_wire (SPI (state_after (clearDisplay st)))
       = (spi_wire (SPI st)
          ++ ((λ i : nat, (h, frame (Z.of_nat i + 1) 0x00)) <$> seq 0 8))%list
     ∧ _decodeModes (this (state_after (clearDisplay st))) = Some modes).
Proof.
  split.
  - intros Hunset.
    assert (Hnone : setDecodeNone st
              = Return tt (sent h [(0x09, 0x00)] (with_decodeModes no_decode st)))
      by (unfold setDecodeNone; by rewrite (setDecodeMode_sent _ h)).
    split; [exact Hnone |].
    rewrite (clearDisplay_unset _ h) by done.
    split.
    { rewrite (bind_Return _ _ _ _ _ Hnone).
      rewrite (for_loop_sent h (λ i : nat, (Z.of_nat i + 1, 0))); [| | done].
      - by rewrite sent_sent.
      - intros i st' Hi Hspi'. apply clearDisplay_body_sent; [done | lia]. }
    split; [reflexivity |]. split; reflexivity.
  - intros modes Hmodes Hlen.
    rewrite (clearDisplay_set _ h modes) by done.
    split; [reflexivity |]. split; [reflexivity | exact Hmodes].
Qed.

Lemma clearDisplay_implicit_decode_none_witness :
  _spi (this two_chips) = Some first_handle
  ∧ _decodeModes (this two_chips) = None
  ∧ spi_wire (SPI (state_after (clearDisplay two_chips)))
    = (first_handle, frame 9 0)
      :: ((λ i : nat, (first_handle, frame (Z.of_nat i + 1) 0)) <$> seq 0 8)
  ∧ clearDisplay (with_decodeModes all_decode two_chips)
    = Return tt
        (sent first_handle blank_frames (with_decodeModes all_decode two_chips)).
Proof.
  split; [reflexivity |]. split; [reflexivity |].
  destruct (clearDisplay_implicit_decode_none two_chips first_handle eq_refl)
    as (Hunset & _).
  destruct (clearDisplay_implicit_decode_none
              (with_decodeModes all_decode two_chips) first_handle eq_refl)
    as (_ & Hset).
  split.
  - destruct (Hunset eq_refl) as (_ & _ & _ & Hwire & _). rewrite Hwire.
    reflexivity.
  - destruct (Hset all_decode eq_refl eq_refl) as (Hclear & _). exact Hclear.
Defined.

(** ** The bit-packing codec *)

Lemma bit_vectors_complete (n : nat) (bs : list bool) :
  length bs = n → bs ∈ bit_vectors n.
Proof.
  revert bs. induction n as [| n IH]; intros bs Hlen.
  - destruct bs; [apply list_elem_of_here | discriminate].
  - destruct bs as [| b bs]; [discriminate |].
    injection Hlen as Hlen. simpl. apply elem_of_app.
    destruct b; [right | left]; apply list_elem_of_fmap_2; by apply IH.
Qed.

Lemma packs_lsb_first_all : forallb packs_lsb_first (bit_vectors 8) = true.
Proof. by vm_compute. Qed.

Lemma packs_lsb_first_ok (bs : list bool) :
  length bs = 8%nat → packs_lsb_first bs = true.
Proof.
  intros Hlen. pose proof packs_lsb_first_all as Hall.
  rewrite forallb_forall in Hall. apply Hall.
  apply list_elem_of_In. by apply bit_vectors_complete.
Qed.

Lemma byte_of_bits (bs : list bool) :
  length bs = 8%nat →
  ∃ z, byte_of (jsbit <$> bs) = JNum z
       ∧ 0 ≤ z < 256
       ∧ (∀ i : nat, (i < 8)%nat →
            Z.testbit z (Z.of_nat i) = default false (bs !! i))
       ∧ byte_of (JBool <$> bs) = JNum z.
Proof.
  intros Hlen. pose proof (packs_lsb_first_ok bs Hlen) as Hok.
  unfold packs_lsb_first in Hok.
  destruct (byte_of (jsbit <$> bs)) as [| | | z |]; try discriminate.
  exists z. split; [done |].
  apply andb_true_iff in Hok as [Hok Hbool].
  apply andb_true_iff in Hok as [Hrange Hbits].
  apply andb_true_iff in Hrange as [Hlo Hhi].
  split; [lia |]. split.
  - intros i Hi. rewrite forallb_forall in Hbits.
    apply Bool.eqb_prop, Hbits, in_seq. lia.
  - by apply bool_decide_eq_true in Hbool.
Qed.

Lemma bits_of_packs_all :
  forallb (λ z, bool_decide (byte_of (jsbit <$> bits_of z) = JNum z))
    (seqZ 0 256) = true.
Proof. by vm_compute. Qed.

Lemma bits_of_packs (z : Z) :
  0 ≤ z < 256 → byte_of (jsbit <$> bits_of z) = JNum z.
Proof.
  intros Hz. pose proof bits_of_packs_all as Hall.
  rewrite forallb_forall in Hall.
  apply (bool_decide_eq_true_1 _), Hall, list_elem_of_In, elem_of_seqZ. lia.
Qed.

(** C4: [encodeByte] is a bijection between the sequences of eight
    booleans and the 256 bytes.  For every sequence [bs] of eight bits,
    written as the numbers 0/1 or as [true]/[false], it returns a byte
    whose bit [i] (bit 0 the least significant) is [bs[i]], for each [i] in
    0..7; two such sequences with the same byte are equal; and every byte
    is the encoding of a sequence of eight bits. *)
Theorem encodeByte_bijection (bs : list bool) (st : state)
    (Hlen : length bs = 8%nat) :
  (∃ z, encodeByte (jsbit <$> bs) st = Return (JNum z) st
        ∧ encodeByte (JBool <$> bs) st = Return (JNum z) st
        ∧ 0 ≤ z < 256
        ∧ ∀ i : nat, (i < 8)%nat →
            Z.testbit z (Z.of_nat i) = default false (bs !! i))
  ∧ (∀ bs' : list bool, length bs' = 8%nat →
       encodeByte (jsbit <$> bs') st = encodeByte (jsbit <$> bs) st → bs' = bs)
  ∧ (∀ z, 0 ≤ z < 256 →
       ∃ bs' : list bool, length bs' = 8%nat
         ∧ encodeByte (jsbit <$> bs') st = Return (JNum z) st).
Proof.
  destruct (byte_of_bits bs Hlen) as (z & Hz & Hrange & Hbits & Hbool).
  split; [| split].
  - exists z. rewrite !encodeByte_pure, Hz, Hbool. done.
  - intros bs' Hlen' Heq.
    destruct (byte_of_bits bs' Hlen') as (z' & Hz' & _ & Hbits' & _).
    rewrite !encodeByte_pure, Hz, Hz' in Heq. injection Heq as ->.
    apply list_eq. intros i.
    destruct (decide (i < 8)%nat) as [Hi | Hi].
    + pose proof (Hbits i Hi) as H1. pose proof (Hbits' i Hi) as H2.
      destruct (lookup_lt_is_Some_2 bs i ltac:(lia)) as [b Hb].
      destruct (lookup_lt_is_Some_2 bs' i ltac:(lia)) as [b' Hb'].
      rewrite Hb in H1. rewrite Hb' in H2. simpl in H1, H2. congruence.
    + rewrite !lookup_ge_None_2 by lia. done.
  - intros z' Hz'. exists (bits_of z'). split; [reflexivity |].
    by rewrite encodeByte_pure, bits_of_packs.
Qed.

Lemma encodeByte_bijection_witness :
  length [true; false; true; false; true; false; true; false] = 8%nat
  ∧ encodeByte (jsbit <$> [true; false; true; false; true; false; true; false])
      two_chips
    = Return (JNum 85) two_chips
  ∧ Z.testbit 85 2 = true.
Proof.
  split; [reflexivity |].
  destruct (encodeByte_bijection
              [true; false; true; false; true; false; true; false] two_chips
              eq_refl) as ((z & Hz & _ & _ & Hbits) & _).
  split; [| reflexivity].
  rewrite Hz. rewrite encodeByte_pure in Hz.
  injection Hz as Hz. vm_compute in Hz. subst z. reflexivity.
Defined.

(** C3, as stated, fails: [encodeByte] returns a byte for a sequence of
    seven bits, it does not throw. *)
Lemma encodeByte_accepts_seven_bits :
  length seven_bits ≠ 8%nat
  ∧ encodeByte seven_bits two_chips = Return (JNum 85) two_chips
  ∧ ¬ fails (encodeByte seven_bits) two_chips.
Proof.
  split; [simpl; lia |]. split; [reflexivity |].
  intros (e & st' & H). discriminate.
Qed.

(** C3, amended: [encodeByte] itself checks no length and rejects no
    input.  For a sequence of any length other than 8 it returns, without
    touching the state, the encoding of the eight elements it reads at
    indices 0..7, where a missing element reads [undefined] and elements
    past the eighth are ignored.  The sequences of length other than 8
    are rejected by the caller [setDecodeMode], which throws before it
    calls [encodeByte] and before any bus write. *)
Theorem encodeByte_checks_no_length (bits : list jsval) (st : state)
    (Hlen : length bits ≠ 8%nat) :
  (∃ v, encodeByte bits st = Return v st)
  ∧ ¬ fails (encodeByte bits) st
  ∧ encodeByte bits st = encodeByte (first_eight bits) st
  ∧ length (first_eight bits) = 8%nat
  ∧ setDecodeMode bits st = Throw (Thrown "Invalid decode mode array") st.
Proof.
  split; [by exists (byte_of bits) |].
  split; [intros (e & st' & H); discriminate |].
  split; [reflexivity |].
  split; [reflexivity |].
  by apply setDecodeMode_rejects.
Qed.

Lemma encodeByte_checks_no_length_witness :
  length (JNum <$> [1; 1; 0; 1; 0; 1; 0; 1; 1]) ≠ 8%nat
  ∧ encodeByte (JNum <$> [1; 1; 0; 1; 0; 1; 0; 1; 1]) two_chips
    = Return (JNum 171) two_chips
  ∧ setDecodeMode (JNum <$> [1; 1; 0; 1; 0; 1; 0; 1; 1]) two_chips
    = Throw (Thrown "Invalid decode mode array") two_chips.
Proof.
  assert (Hlen : length (JNum <$> [1; 1; 0; 1; 0; 1; 0; 1; 1]) ≠ 8%nat)
    by (simpl; lia).
  destruct (encodeByte_checks_no_length
              (JNum <$> [1; 1; 0; 1; 0; 1; 0; 1; 1]) two_chips Hlen)
    as (_ & _ & Hfirst & _ & Hreject).
  split; [exact Hlen |]. split; [| exact Hreject].
  rewrite Hfirst. reflexivity.
Defined.

(** ** Unresolvable names *)

Lemma resolve_unbound locals x st :
  (list_to_map locals : gmap string binding) !! x = None →
  module_scope !! x = None →
  globalThis st !! x = None →
  resolve locals x st = Throw (ReferenceError x) st.
Proof.
  intros Hlocal Hmodule Hglobal. unfold resolve.
  rewrite (bind_Return get _ st st st) by done.
  by rewrite Hlocal, Hmodule, Hglobal.
Qed.

(** In a process whose global object has no property [segments], every
    call of [setDigitSegments] with a digit index in [0,7] stops at the
    read of that name, whatever the array. *)
Lemma setDigitSegments_in_range st n segment :
  0 ≤ n ≤ 7 → globalThis st !! "segments" = None →
  setDigitSegments n segment st = Throw (ReferenceError "segments") st.
Proof.
  intros Hn Hglobal. unfold setDigitSegments. rewrite digit_guard_in by done.
  erewrite bind_Throw; [done |].
  apply resolve_unbound; [by vm_compute | by vm_compute | done].
Qed.

Lemma setDigitSegments_out_of_range st n segment :
  ¬ 0 ≤ n ≤ 7 →
  setDigitSegments n segment st = Throw (Thrown "Invalid digit number") st.
Proof. intros Hn. unfold setDigitSegments. by rewrite digit_guard_out. Qed.

(** In a process whose global object has no property [bus], every call of
    [setActiveController] with an index in range closes the handle the
    controller holds and then stops at the read of that name: no handle is
    opened, [_spi] still refers to the closed one, and the active address
    is not updated. *)
Lemma setActiveController_in_range st h index :
  0 ≤ index < _totalControllers (this st) → _spi (this st) = Some h →
  globalThis st !! "bus" = None →
  setActiveController index st
  = Throw (ReferenceError "bus")
      (State (this st) (spi_closeSync h (SPI st)) (globalThis st)).
Proof.
  intros Hindex Hspi Hglobal. unfold setActiveController.
  rewrite (bind_Return get _ st st st) by done.
  rewrite index_guard_in by done. rewrite Hspi.
  erewrite bind_Return; [| reflexivity].
  erewrite bind_Throw; [done |].
  apply resolve_unbound; [by vm_compute | by vm_compute | done].
Qed.

(** C1 (the code departs from it): on the controller made by
    [new MAX7219(0, 0, 2)], [setDigitSegments(0, [0,0,1,1,0,1,1,1])], the
    first call of the example in the header of the source, throws a
    ReferenceError for the name [segments] and hands nothing to the bus;
    so does the call for digit 7.  Only the digit-index check works:
    digit 8 is rejected with "Invalid digit number". *)
Theorem setDigitSegments_throws_ReferenceError :
  setDigitSegments 0 (JNum <$> [0; 0; 1; 1; 0; 1; 1; 1]) two_chips
  = Throw (ReferenceError "segments") two_chips
  ∧ setDigitSegments 7 (JNum <$> [0; 1; 1; 0; 0; 1; 1; 1]) two_chips
    = Throw (ReferenceError "segments") two_chips
  ∧ spi_wire (SPI (state_after
        (setDigitSegments 0 (JNum <$> [0; 0; 1; 1; 0; 1; 1; 1]) two_chips)))
    = []
  ∧ setDigitSegments 8 (JNum <$> [0; 0; 1; 1; 0; 1; 1; 1]) two_chips
    = Throw (Thrown "Invalid digit number") two_chips.
Proof.
  assert (Hglobal : globalThis two_chips !! "segments" = None)
    by (by vm_compute).
  rewrite !setDigitSegments_in_range by (done || lia).
  rewrite setDigitSegments_out_of_range by lia. done.
Qed.

(** C2 (the code departs from it): on the controller made by
    [new MAX7219(0, 0, 2)], [setActiveController(1)], with 1 in
    [0, totalControllers), throws a ReferenceError for the name [bus]
    after closing the handle: no handle is open afterwards, [_spi] still
    holds the closed handle, and the active address is still 0. *)
Theorem setActiveController_throws_ReferenceError :
  0 ≤ 1 < _totalControllers (this two_chips)
  ∧ spi_open (SPI two_chips) = [first_handle]
  ∧ ∃ st',
      setActiveController 1 two_chips = Throw (ReferenceError "bus") st'
      ∧ spi_open (SPI st') = []
      ∧ _spi (this st') = Some first_handle
      ∧ _activeController (this st') = 0.
Proof.
  split; [simpl; lia |]. split; [reflexivity |].
  eexists. split.
  - apply (setActiveController_in_range two_chips first_handle 1);
      [simpl; lia | reflexivity | by vm_compute].
  - by vm_compute.
Qed.

(** ** Invariants of the controller

    Whatever the application calls, and whether the calls return or throw,
    a constructed controller keeps a handle in [_spi], and its decode-mode
    vector, once set, has eight entries.  These are the assumptions of the
    statements above.  The handle stays the only open one for as long as
    no call re-selects the active controller. *)

Create HintDb preservation.

Section Preservation.

(** An invariant that a transfer and a store of an eight-entry
    decode-mode vector maintain is kept by every method that is not a
    re-selection. *)
Variable I : state → Prop.
Hypothesis I_transfer : ∀ h msg st, I st → I (transferred h msg st).
Hypothesis I_decodeModes :
  ∀ modes st, length modes = 8%nat → I st → I (with_decodeModes modes st).

Lemma preserves_ret {A : Type} (a : A) : preserves I (mret a).
Proof. intros st H. exact H. Qed.

Lemma preserves_throw {A : Type} (e : exn) : preserves I (@throw A e).
Proof. intros st H. exact H. Qed.

Lemma preserves_get : preserves I get.
Proof. intros st H. exact H. Qed.

Lemma preserves_bind {A B : Type} (m : M A) (k : A → M B) :
  preserves I m → (∀ a, preserves I (k a)) → preserves I (m ≫= k).
Proof.
  intros Hm Hk st Hst. unfold mbind, M_bind.
  specialize (Hm st Hst). destruct (m st) as [a st' | e st']; simpl in Hm.
  - by apply Hk.
  - exact Hm.
Qed.

Lemma preserves_resolve locals x : preserves I (resolve locals x).
Proof.
  intros st H. unfold resolve, mbind, M_bind, get.
  destruct (_ !! x); [exact H |].
  destruct (module_scope !! x); [exact H |].
  destruct (globalThis st !! x); exact H.
Qed.

Lemma preserves_binding_length b : preserves I (binding_length b).
Proof.
  destruct b as [[] | | |]; simpl;
    first [apply preserves_throw | apply preserves_ret].
Qed.

Lemma preserves_shiftOut a b : preserves I (_shiftOut a b).
Proof.
  intros st H. unfold _shiftOut, mbind, M_bind, get.
  destruct (_spi (this st)); [by apply I_transfer | exact H].
Qed.

Lemma preserves_encodeByte bits : preserves I (encodeByte bits).
Proof. apply preserves_ret. Qed.

Lemma preserves_for_loop (body : nat → M unit) count :
  (∀ i, preserves I (body i)) →
  ∀ start, preserves I (for_loop count start body).
Proof.
  intros Hbody. induction count as [| count IH]; intros start; simpl.
  - apply preserves_ret.
  - apply preserves_bind; [apply Hbody | intros _; apply IH].
Qed.

#[local] Hint Resolve preserves_ret preserves_throw preserves_get
  preserves_resolve preserves_binding_length preserves_shiftOut
  preserves_encodeByte : preservation.

(** One step through the structure of a method body. *)
Ltac preservation_step :=
  match goal with
  | |- preserves _ (_ ≫= _) => apply preserves_bind; [| intros ?]
  | |- preserves _ (if ?b then _ else _) => destruct b eqn:?
  | |- preserves _ (match ?x with _ => _ end) => destruct x
  | |- preserves _ _ => solve [auto with preservation]
  end.

Ltac preservation := repeat preservation_step.

Lemma preserves_setDecodeMode modes : preserves I (setDecodeMode modes).
Proof.
  unfold setDecodeMode.
  destruct (negb (Z.of_nat (length modes) =? 8)) eqn:Hlen.
  - apply preserves_throw.
  - apply negb_false_iff, Z.eqb_eq in Hlen.
    apply preserves_bind; [| intros _; preservation].
    intros st Hst. apply I_decodeModes; [lia | exact Hst].
Qed.

#[local] Hint Resolve preserves_setDecodeMode : preservation.

Lemma preserves_setDigitSegmentsByte n byte :
  preserves I (setDigitSegmentsByte n byte).
Proof. unfold setDigitSegmentsByte. preservation. Qed.

Lemma preserves_setDigitSymbol n symbol dp :
  preserves I (setDigitSymbol n symbol dp).
Proof. unfold setDigitSymbol. preservation. Qed.

#[local] Hint Resolve preserves_setDigitSegmentsByte
  preserves_setDigitSymbol : preservation.

Lemma preserves_clearDisplay : preserves I clearDisplay.
Proof.
  unfold clearDisplay, setDecodeNone. preservation.
  apply preserves_for_loop. intros i. unfold clearDisplay_body. preservation.
Qed.

Lemma preserves_setDigitSegments n segment :
  preserves I (setDigitSegments n segment).
Proof. unfold setDigitSegments. preservation. Qed.

Lemma setActiveController_rejected st index :
  ¬ 0 ≤ index < _totalControllers (this st) →
  state_after (setActiveController index st) = st.
Proof.
  intros Hout. unfold setActiveController, mbind, M_bind, get.
  by rewrite index_guard_out.
Qed.

Lemma preserves_display_call (c : call) :
  (∀ index, c ≠ CallSetActiveController index) →
  preserves I (run_call c).
Proof.
  intros Hc. destruct c; simpl; [by destruct (Hc index) | ..];
    first [ apply preserves_setDigitSegments
          | apply preserves_clearDisplay
          | unfold startup, shutdown, startDisplayTest, stopDisplayTest,
              setDecodeNone, setDecodeAll, setDisplayIntensity, setScanLimit;
            solve [preservation] ].
Qed.

Lemma call_cases (c : call) :
  (∃ index, c = CallSetActiveController index)
  ∨ ∀ index, c ≠ CallSetActiveController index.
Proof. destruct c; (by left; eexists) || by right. Qed.

Lemma preserves_call (c : call) st :
  ¬ reselects st c → I st → I (state_after (run_call c st)).
Proof.
  intros Hc Hst.
  destruct (call_cases c) as [[index ->] | Hne].
  - simpl in *. by rewrite setActiveController_rejected.
  - by apply preserves_display_call.
Qed.

End Preservation.

Lemma controller_ok_transferred h msg st :
  controller_ok st → controller_ok (transferred h msg st).
Proof. intros H. exact H. Qed.

Lemma controller_ok_with_decodeModes modes st :
  length modes = 8%nat → controller_ok st →
  controller_ok (with_decodeModes modes st).
Proof. intros Hlen [Hspi _]. split; [exact Hspi | exact Hlen]. Qed.

Lemma controller_ok_setActiveController index :
  preserves controller_ok (setActiveController index).
Proof.
  unfold setActiveController.
  apply preserves_bind; [apply preserves_get | intros st0].
  destruct (_ || _); [apply preserves_throw |].
  apply preserves_bind.
  - destruct (_spi (this st0)); [| apply preserves_throw].
    intros st H. exact H.
  - intros _. apply preserves_bind; [apply preserves_resolve | intros bus].
    destruct bus as [[| | | bus |] | | |]; try apply preserves_throw.
    apply preserves_bind; [intros st H; exact H | intros spi].
    apply preserves_bind; [| intros _; intros st H; exact H].
    intros st [_ Hwf]. split; [by eexists | exact Hwf].
Qed.

Lemma controller_ok_call (c : call) st :
  controller_ok st → controller_ok (state_after (run_call c st)).
Proof.
  destruct (call_cases c) as [[index ->] | Hne].
  - apply controller_ok_setActiveController.
  - apply preserves_display_call; [| | done].
    + apply controller_ok_transferred.
    + apply controller_ok_with_decodeModes.
Qed.

Lemma owns_one_handle_call (c : call) st :
  ¬ reselects st c →
  owns_one_handle st → owns_one_handle (state_after (run_call c st)).
Proof.
  intros Hc. apply preserves_call; [| | exact Hc].
  - intros h msg st' H. exact H.
  - intros modes st' _ H. exact H.
Qed.

Lemma constructed_ok bus device count d g st :
  MAX7219 bus device count d g = inr st → controller_ok st.
Proof.
  unfold MAX7219. destruct (_ <? 0); [discriminate |].
  intros [= <-]. split; [by eexists | exact I].
Qed.

Lemma constructed_owns_one_handle bus device count g st :
  MAX7219 bus device count spi_boot g = inr st → owns_one_handle st.
Proof.
  unfold MAX7219. destruct (_ <? 0); [discriminate |].
  intros [= <-]. by eexists.
Qed.

(** Every state a session reaches from a constructed controller satisfies
    the two invariants. *)
Lemma session_ok bus device count d g st (cs : list call) :
  MAX7219 bus device count d g = inr st →
  controller_ok (run_session cs st).
Proof.
  intros Hnew. apply constructed_ok in Hnew.
  revert st Hnew. induction cs as [| c cs IH]; intros st Hst; simpl.
  - exact Hst.
  - apply IH. by apply controller_ok_call.
Qed.

(** A re-selection with an index in range is what loses the handle: in a
    process without a global [bus] it leaves no handle open. *)
Lemma reselection_loses_handle st index :
  owns_one_handle st → globalThis st !! "bus" = None →
  0 ≤ index < _totalControllers (this st) →
  spi_open (SPI (state_after (setActiveController index st))) = [].
Proof.
  intros (h & Hspi & Hopen) Hglobal Hindex.
  rewrite (setActiveController_in_range _ h) by done.
  unfold state_after, spi_closeSync, SPI at 1, spi_open at 1. rewrite Hopen.
  rewrite filter_cons_False; [done |]. intros Hne. by apply Hne.
Qed.

(** * Further properties *)

(** ** Construction *)

(** X1: a controller that [new MAX7219(bus, device, count)] returns has
    the bus and the device it was given (device 0 when omitted), a chip
    count of [count], or 1 when [count] is omitted or 0, hence at least 1,
    no decode-mode vector yet, and one more open handle, bound to that bus
    and device, which it keeps in [_spi]; nothing was sent. *)
Theorem constructor_postcondition bus device count d g st
    (Hnew : MAX7219 bus device count d g = inr st) :
  _bus (this st) = bus
  ∧ _activeController (this st) = default 0 device
  ∧ _totalControllers (this st)
    = match count with
      | Some c => if decide (c = 0) then 1 else c
      | None => 1
      end
  ∧ 1 ≤ _totalControllers (this st)
  ∧ _decodeModes (this st) = None
  ∧ (∃ h, _spi (this st) = Some h
          ∧ h_bus h = bus ∧ h_device h = default 0 device
          ∧ spi_open (SPI st) = h :: spi_open d)
  ∧ spi_wire (SPI st) = spi_wire d
  ∧ globalThis st = g.
Proof.
  unfold MAX7219 in Hnew. destruct count as [c |]; simpl in Hnew.
  - destruct (decide (c = 0)) as [-> | Hc].
    + simpl in Hnew. injection Hnew as <-. simpl.
      repeat split; try done. by eexists.
    + rewrite (proj2 (Z.eqb_neq c 0) Hc) in Hnew. simpl in Hnew.
      destruct (c * 2 <? 0) eqn:Hsize; [discriminate |].
      apply Z.ltb_ge in Hsize. injection Hnew as <-. simpl.
      repeat split; try done; [lia | by eexists].
  - simpl in Hnew. injection Hnew as <-. simpl.
    repeat split; try done. by eexists.
Qed.

Lemma constructor_postcondition_witness :
  MAX7219 0 None (Some 0) spi_boot node_globals
  = inr (State (Controller 0 0 1 None (Some first_handle))
           (SpiDevice [first_handle] 4 []) node_globals)
  ∧ _totalControllers (this (State (Controller 0 0 1 None (Some first_handle))
           (SpiDevice [first_handle] 4 []) node_globals)) = 1.
Proof.
  split; [reflexivity |].
  destruct (constructor_postcondition 0 None (Some 0) spi_boot node_globals
              _ eq_refl) as (_ & _ & Htotal & _).
  exact Htotal.
Defined.



(** ** Operating modes *)

(** X3: with a handle in place, the four mode calls each return after
    handing exactly one frame to the transport and change nothing else:
    [startup] sends 0x01 and [shutdown] 0x00 to the Shutdown register
    (0x0c); [startDisplayTest] sends 0x01 and [stopDisplayTest] 0x00 to
    the DisplayTest register (0x0f). *)
Theorem mode_calls_send_one_frame st h (Hspi : _spi (this st) = Some h) :
  startup st = Return tt (sent h [(0x0c, 0x01)] st)
  ∧ shutdown st = Return tt (sent h [(0x0c, 0x00)] st)
  ∧ startDisplayTest st = Return tt (sent h [(0x0f, 0x01)] st)
  ∧ stopDisplayTest st = Return tt (sent h [(0x0f, 0x00)] st).
Proof.
  unfold startup, shutdown, startDisplayTest, stopDisplayTest.
  by rewrite !(shiftOut_sent _ h).
Qed.

Lemma mode_calls_send_one_frame_witness :
  _spi (this two_chips) = Some first_handle
  ∧ spi_wire (SPI (state_after ((startup;; shutdown) two_chips)))
    = [(first_handle, frame 12 1); (first_handle, frame 12 0)].
Proof.
  split; [reflexivity |].
  destruct (mode_calls_send_one_frame two_chips first_handle eq_refl)
    as (Hup & _).
  rewrite (bind_Return _ _ _ _ _ Hup).
  destruct (mode_calls_send_one_frame
              (sent first_handle [(12, 1)] two_chips) first_handle eq_refl)
    as (_ & Hdown & _).
  rewrite Hdown. reflexivity.
Defined.

(** X4: [setDisplayIntensity(brightness)] throws "Invalid brightness
    number" and sends nothing for every brightness outside [0,15]; for
    every brightness in [0,15] it sends that value as the data byte to the
    Intensity register (0x0a). *)
Theorem setDisplayIntensity_writes_brightness st h brightness
    (Hspi : _spi (this st) = Some h) :
  (0 ≤ brightness ≤ 15 →
     setDisplayIntensity brightness st
     = Return tt (sent h [(0x0a, brightness)] st))
  ∧ (¬ 0 ≤ brightness ≤ 15 →
     setDisplayIntensity brightness st
     = Throw (Thrown "Invalid brightness number") st).
Proof.
  unfold setDisplayIntensity. split; intros Hb.
  - replace ((brightness <? 0) || (brightness >? 15)) with false
      by (symmetry; apply orb_false_iff; lia).
    rewrite (shiftOut_sent _ h) by done.
    replace (to_uint8 (JNum brightness)) with brightness; [done |].
    unfold to_uint8; simpl. symmetry. apply Z.mod_small. lia.
  - replace ((brightness <? 0) || (brightness >? 15)) with true
      by (symmetry; apply orb_true_iff; lia).
    done.
Qed.

Lemma setDisplayIntensity_writes_brightness_witness :
  _spi (this two_chips) = Some first_handle
  ∧ setDisplayIntensity 15 two_chips
    = Return tt (sent first_handle [(10, 15)] two_chips)
  ∧ setDisplayIntensity 16 two_chips
    = Throw (Thrown "Invalid brightness number") two_chips.
Proof.
  destruct (setDisplayIntensity_writes_brightness two_chips first_handle 15
              eq_refl) as (Hin & _).
  destruct (setDisplayIntensity_writes_brightness two_chips first_handle 16
              eq_refl) as (_ & Hout).
  split; [reflexivity |]. split; [apply Hin; lia | apply Hout; lia].
Defined.

(** ** Digit registers *)

Lemma registers_are_bytes :
  map_Forall (λ _ v, 0 ≤ v < 256) _Registers.
Proof. apply (bool_decide_unpack _). by vm_compute. Qed.

Lemma register_digit_missing (n : Z) :
  ¬ 0 ≤ n ≤ 7 → register ("Digit" +:+ number_to_string n) = JUndefined.
Proof.
  intros Hn. unfold register.
  destruct (_Registers !! _) as [v |] eqn:Hv; [exfalso | done].
  assert (Hdigit : ∀ k, 0 ≤ k ≤ 7 → number_to_string n ≠ number_to_string k).
  { intros k Hk Heq. apply (inj pretty) in Heq. lia. }
  unfold _Registers in Hv. apply elem_of_list_to_map_2 in Hv.
  repeat (apply elem_of_cons in Hv as [Hv | Hv];
          [first [ discriminate Hv
                 | injection Hv as Hkey _;
                   first [ exact (Hdigit 0 ltac:(lia) Hkey)
                         | exact (Hdigit 1 ltac:(lia) Hkey)
                         | exact (Hdigit 2 ltac:(lia) Hkey)
                         | exact (Hdigit 3 ltac:(lia) Hkey)
                         | exact (Hdigit 4 ltac:(lia) Hkey)
                         | exact (Hdigit 5 ltac:(lia) Hkey)
                         | exact (Hdigit 6 ltac:(lia) Hkey)
                         | exact (Hdigit 7 ltac:(lia) Hkey) ] ] |]).
  by apply elem_of_nil in Hv.
Qed.

(** X5: [setDigitSegmentsByte(n, byte)] checks nothing.  For a digit
    index in [0,7] it sends the low eight bits of [byte] to digit register
    [n] (address [n+1]).  For any other integer [n] there is no register
    ["Digit" + n]: the address byte becomes 0x00, so the call returns
    after sending a frame to the NoOp register instead of failing. *)
Theorem setDigitSegmentsByte_unchecked st h n (byte : Z)
    (Hspi : _spi (this st) = Some h) :
  (0 ≤ n ≤ 7 →
     setDigitSegmentsByte n (JNum byte) st
     = Return tt (sent h [(n + 1, byte mod 256)] st))
  ∧ (¬ 0 ≤ n ≤ 7 →
     setDigitSegmentsByte n (JNum byte) st
     = Return tt (sent h [(0x00, byte mod 256)] st))
  ∧ _Registers !! "NoOp" = Some 0x00.
Proof.
  split; [| split; [| by vm_compute]].
  - intros Hn. by rewrite (setDigitSegmentsByte_sent _ h).
  - intros Hn. unfold setDigitSegmentsByte.
    rewrite (shiftOut_sent _ h) by done.
    by rewrite register_digit_missing.
Qed.

Lemma setDigitSegmentsByte_unchecked_witness :
  _spi (this two_chips) = Some first_handle
  ∧ setDigitSegmentsByte 2 (JNum 0x1ff) two_chips
    = Return tt (sent first_handle [(3, 0xff)] two_chips)
  ∧ setDigitSegmentsByte 8 (JNum 0x37) two_chips
    = Return tt (sent first_handle [(0, 0x37)] two_chips).
Proof.
  destruct (setDigitSegmentsByte_unchecked two_chips first_handle 2 0x1ff
              eq_refl) as (Hin & _).
  destruct (setDigitSegmentsByte_unchecked two_chips first_handle 8 0x37
              eq_refl) as (_ & Hout & _).
  split; [reflexivity |]. split.
  - rewrite Hin by lia. reflexivity.
  - rewrite Hout by lia. reflexivity.
Defined.

Lemma font_decimal_point :
  map_Forall (λ k v,
    k = "!" ∨ k = "."
    ∨ (Z.testbit (Z.lor v 0x80) 7 = true ∧ Z.testbit (Z.lor v 0) 7 = false
       ∧ Z.land (Z.lor v 0x80) 0x7f = v ∧ Z.land (Z.lor v 0) 0x7f = v)) _Font.
Proof. apply (bool_decide_unpack _). by vm_compute. Qed.

(** X6: for every symbol other than ['!'] and ['.'], the byte that
    [setDigitSymbol(n, symbol, dp)] sends has its bit 7, the decimal
    point, set exactly when [dp] is truthy, and its low seven bits are the
    font pattern of the symbol whatever [dp] is.  For ['!'] and ['.'] the
    font value itself has bit 7 set, so the decimal point is lit even
    when [dp] is false. *)
Theorem setDigitSymbol_decimal_point st h n symbol dp
    (Hspi : _spi (this st) = Some h) (Hn : 0 ≤ n ≤ 7) :
  ∃ byte,
    setDigitSymbol n symbol dp st = Return tt (sent h [(n + 1, byte)] st)
    ∧ (symbol ≠ "!" → symbol ≠ "." →
       Z.testbit byte 7 = truthy dp ∧ Z.land byte 0x7f = lookup symbol)
    ∧ (symbol = "!" ∨ symbol = "." → Z.testbit byte 7 = true).
Proof.
  eexists. split; [by apply (setDigitSymbol_sent _ h) |]. split.
  - intros Hbang Hdot. unfold lookup.
    destruct (_Font !! symbol) as [v |] eqn:Hv; simpl.
    + destruct (font_decimal_point _ _ Hv)
        as [-> | [-> | (Hon & Hoff & Hlow_on & Hlow_off)]]; [done | done |].
      by destruct (truthy dp).
    + by destruct (truthy dp).
  - intros [-> | ->]; by destruct (truthy dp).
Qed.

Lemma setDigitSymbol_decimal_point_witness :
  _spi (this two_chips) = Some first_handle ∧ 0 ≤ 3 ≤ 7
  ∧ setDigitSymbol 3 "H" JUndefined two_chips
    = Return tt (sent first_handle [(4, 0x37)] two_chips)
  ∧ setDigitSymbol 3 "." (JBool false) two_chips
    = Return tt (sent first_handle [(4, 0x80)] two_chips).
Proof.
  assert (Hn : 0 ≤ 3 ≤ 7) by lia.
  split; [reflexivity |]. split; [exact Hn |]. split.
  - destruct (setDigitSymbol_decimal_point two_chips first_handle 3 "H"
                JUndefined eq_refl Hn) as (byte & Hrun & Hplain & _).
    destruct Hplain as (Hbit & Hlow); [done | done |].
    rewrite Hrun. do 3 f_equal.
    rewrite (setDigitSymbol_sent _ first_handle) in Hrun by done.
    by injection Hrun as <-.
  - destruct (setDigitSymbol_decimal_point two_chips first_handle 3 "."
                (JBool false) eq_refl Hn) as (byte & Hrun & _ & Hdot).
    rewrite Hrun. do 3 f_equal.
    rewrite (setDigitSymbol_sent _ first_handle) in Hrun by done.
    by injection Hrun as <-.
Defined.

(** ** More on the codec *)

(** X7: what [encodeByte] makes of a short input.  A missing element at
    an index from 1 to 7 counts as a 0 bit: a non-empty sequence encodes
    like the same sequence padded with zeros up to eight elements.  The
    first element is different, it is added, not shifted: when the
    sequence is empty, or starts with [undefined], the result is NaN
    whatever follows, and NaN goes on the wire as the byte 0x00. *)
Theorem encodeByte_short_input (b0 : jsval) (rest : list jsval) (st : state)
    (Hshort : (length rest < 8)%nat) :
  encodeByte (b0 :: rest) st
  = encodeByte (b0 :: rest ++ replicate (7 - length rest) (JNum 0)) st
  ∧ length (b0 :: rest ++ replicate (7 - length rest) (JNum 0)) = 8%nat
  ∧ encodeByte [] st = Return JNaN st
  ∧ encodeByte (JUndefined :: rest) st = Return JNaN st
  ∧ to_uint8 JNaN = 0x00.
Proof.
  split; [| split; [| split; [| split]]]; try reflexivity.
  - do 8 (destruct rest as [| ? rest]; [reflexivity |]).
    simpl in Hshort. lia.
  - simpl. rewrite length_app, length_replicate. lia.
Qed.

Lemma encodeByte_short_input_witness :
  (length [JNum 1; JNum 1] < 8)%nat
  ∧ encodeByte [JNum 1; JNum 1; JNum 1] two_chips = Return (JNum 7) two_chips.
Proof.
  assert (Hshort : (length [JNum 1; JNum 1] < 8)%nat) by (simpl; lia).
  split; [exact Hshort |].
  destruct (encodeByte_short_input (JNum 1) [JNum 1; JNum 1] two_chips Hshort)
    as (Hpad & _).
  rewrite Hpad. reflexivity.
Defined.

(** X8: [setDecodeMode] with any vector of eight bits, written as 0/1
    or as booleans, stores the vector and sends to the DecodeMode register
    (0x09) the byte whose bit [i] is the mode of digit [i]. *)
Theorem setDecodeMode_writes_packed_vector st h (bs : list bool)
    (Hspi : _spi (this st) = Some h) (Hlen : length bs = 8%nat) :
  ∃ z, 0 ≤ z < 256
    ∧ (∀ i : nat, (i < 8)%nat →
         Z.testbit z (Z.of_nat i) = default false (bs !! i))
    ∧ setDecodeMode (jsbit <$> bs) st
      = Return tt (sent h [(0x09, z)] (with_decodeModes (jsbit <$> bs) st))
    ∧ setDecodeMode (JBool <$> bs) st
      = Return tt (sent h [(0x09, z)] (with_decodeModes (JBool <$> bs) st)).
Proof.
  destruct (byte_of_bits bs Hlen) as (z & Hz & Hrange & Hbits & Hbool).
  exists z. split; [done |]. split; [done |].
  assert (Hbyte : to_uint8 (JNum z) = z)
    by (unfold to_uint8; simpl; apply Z.mod_small; lia).
  rewrite !(setDecodeMode_sent _ h) by (done || by rewrite length_fmap).
  by rewrite Hz, Hbool, Hbyte.
Qed.

Lemma setDecodeMode_writes_packed_vector_witness :
  _spi (this two_chips) = Some first_handle
  ∧ length [true; true; true; true; false; false; false; false] = 8%nat
  ∧ spi_wire (SPI (state_after (setDecodeMode
        (jsbit <$> [true; true; true; true; false; false; false; false])
        two_chips)))
    = [(first_handle, frame 9 0x0f)].
Proof.
  split; [reflexivity |]. split; [reflexivity |].
  destruct (setDecodeMode_writes_packed_vector two_chips first_handle
              [true; true; true; true; false; false; false; false]
              eq_refl eq_refl) as (z & _ & _ & Hrun & _).
  rewrite Hrun.
  rewrite (setDecodeMode_sent _ first_handle) in Hrun by done.
  injection Hrun as Hz. vm_compute in Hz. subst z. reflexivity.
Defined.

(** ** Invariants over whole sessions *)

Lemma shiftOut_run st a b :
  _shiftOut a b st
  = match _spi (this st) with
    | Some h => Return tt (transferred h (frame (to_uint8 a) (to_uint8 b)) st)
    | None => Throw (Thrown "SPI device not initialized") st
    end.
Proof.
  unfold _shiftOut, mbind, M_bind, get. by destruct (_spi (this st)).
Qed.

Lemma reselect_run bus index st :
  (spi ← openSync bus index;
   modify_this (set_spi spi);; modify_this (set_activeController index)) st
  = Return tt (reselected bus index st).
Proof. reflexivity. Qed.

Create HintDb any_call.

Section AnyCall.

(** An invariant that the four state changes of the driver maintain is
    kept by every call, re-selections included: a transfer of a frame
    addressed through the register map, a store of an eight-entry
    decode-mode vector, the closing of a handle, and the re-opening that
    ends a re-selection. *)
Variable I : state → Prop.
Hypothesis I_frame :
  ∀ h key b st,
    I st → I (transferred h (frame (to_uint8 (register key)) (to_uint8 b)) st).
Hypothesis I_decodeModes :
  ∀ modes st, length modes = 8%nat → I st → I (with_decodeModes modes st).
Hypothesis I_closed : ∀ h st, I st → I (closed h st).
Hypothesis I_reselected : ∀ bus index st, I st → I (reselected bus index st).

Lemma any_shiftOut key b : preserves I (_shiftOut (register key) b).
Proof.
  intros st H. rewrite shiftOut_run.
  destruct (_spi (this st)); [by apply I_frame | exact H].
Qed.

#[local] Hint Resolve preserves_ret preserves_throw preserves_get
  preserves_resolve preserves_binding_length preserves_encodeByte
  any_shiftOut : any_call.

Ltac any_call_step :=
  match goal with
  | |- preserves _ (_ ≫= _) => apply preserves_bind; [| intros ?]
  | |- preserves _ (if ?b then _ else _) => destruct b eqn:?
  | |- preserves _ (match ?x with _ => _ end) => destruct x
  | |- preserves _ _ => solve [auto with any_call]
  end.

Ltac any_call := repeat any_call_step.

Lemma any_setDecodeMode modes : preserves I (setDecodeMode modes).
Proof.
  unfold setDecodeMode.
  destruct (negb (Z.of_nat (length modes) =? 8)) eqn:Hlen.
  - apply preserves_throw.
  - apply negb_false_iff, Z.eqb_eq in Hlen.
    apply preserves_bind; [| intros _; any_call].
    intros st Hst. apply I_decodeModes; [lia | exact Hst].
Qed.

#[local] Hint Resolve any_setDecodeMode : any_call.

Lemma any_setDigitSegmentsByte n byte : preserves I (setDigitSegmentsByte n byte).
Proof. unfold setDigitSegmentsByte. any_call. Qed.

Lemma any_setDigitSymbol n symbol dp : preserves I (setDigitSymbol n symbol dp).
Proof. unfold setDigitSymbol. any_call. Qed.

#[local] Hint Resolve any_setDigitSegmentsByte any_setDigitSymbol : any_call.

Lemma any_clearDisplay : preserves I clearDisplay.
Proof.
  unfold clearDisplay, setDecodeNone. any_call.
  apply preserves_for_loop. intros i. unfold clearDisplay_body. any_call.
Qed.

Lemma any_setDigitSegments n segment : preserves I (setDigitSegments n segment).
Proof. unfold setDigitSegments. any_call. Qed.

Lemma any_setActiveController index : preserves I (setActiveController index).
Proof.
  unfold setActiveController.
  apply preserves_bind; [apply preserves_get | intros st0].
  destruct (_ || _); [apply preserves_throw |].
  apply preserves_bind.
  - destruct (_spi (this st0)); [| apply preserves_throw].
    intros st H. by apply I_closed.
  - intros _. apply preserves_bind; [apply preserves_resolve | intros bus].
    destruct bus as [[| | | bus |] | | |]; try apply preserves_throw.
    intros st H. rewrite reselect_run. by apply I_reselected.
Qed.

Lemma any_call_preserves (c : call) : preserves I (run_call c).
Proof.
  destruct c; simpl;
    first [ apply any_setActiveController
          | apply any_setDigitSegments
          | apply any_clearDisplay
          | unfold startup, shutdown, startDisplayTest, stopDisplayTest,
              setDecodeNone, setDecodeAll, setDisplayIntensity, setScanLimit;
            solve [any_call] ].
Qed.

Lemma any_session_preserves (cs : list call) st :
  I st → I (run_session cs st).
Proof.
  revert st. induction cs as [| c cs IH]; intros st Hst; simpl.
  - exact Hst.
  - apply IH. by apply any_call_preserves.
Qed.

End AnyCall.

Lemma constructor_fields bus device count d g st :
  MAX7219 bus device count d g = inr st →
  (_bus (this st) = bus ∧ 1 ≤ _totalControllers (this st)
   ∧ _activeController (this st) = default 0 device ∧ globalThis st = g)
  ∧ spi_wire (SPI st) = spi_wire d.
Proof.
  unfold MAX7219. destruct (_ <? 0) eqn:Hsize; [discriminate |].
  apply Z.ltb_ge in Hsize. intros [= <-]. simpl.
  repeat split. destruct count as [c |]; simpl in *; [| lia].
  destruct (Z.eqb_spec c 0); simpl in *; lia.
Qed.

Lemma frame_ok_register h key b :
  frame_ok (h, frame (to_uint8 (register key)) (to_uint8 b)).
Proof.
  assert (Hdata : 0 ≤ to_uint8 b < 256).
  { unfold to_uint8. destruct (to_number b) as [z |]; simpl; [| lia].
    apply Z.mod_pos_bound. lia. }
  unfold register. destruct (_Registers !! key) as [v |] eqn:Hv; simpl.
  - exists key, v, (to_uint8 b). split; [done |]. split; [done |].
    pose proof (registers_are_bytes _ _ Hv) as Hrange. cbv beta in Hrange.
    unfold to_uint8 at 1; simpl. by rewrite Z.mod_small by lia.
  - exists "NoOp", 0, (to_uint8 b). split; [by vm_compute |]. done.
Qed.

(** X9: every transfer the driver issues has the wire format of the
    chip.  If the transport's log holds only well-formed frames when the
    controller is constructed, then after any session of calls, returning
    or throwing, every logged transfer is a single message of byte length
    2 at 20 kHz whose send buffer is an address of the register map
    followed by a data byte in [0,255]. *)
Theorem session_wire_format bus device count d g st (cs : list call)
    (Hnew : MAX7219 bus device count d g = inr st)
    (Hlog : Forall frame_ok (spi_wire d)) :
  wire_ok (run_session cs st)
  ∧ ∀ t, t ∈ spi_wire (SPI (run_session cs st)) →
      ∃ reg data,
        t.2 = [Message [reg; data] [0; 0] 2 20000]
        ∧ reg ∈ [0x00; 0x01; 0x02; 0x03; 0x04; 0x05; 0x06; 0x07; 0x08; 0x09;
                 0x0a; 0x0b; 0x0c; 0x0f]
        ∧ 0 ≤ data < 256.
Proof.
  assert (Hwire : wire_ok (run_session cs st)).
  { apply any_session_preserves.
    - intros h key b st' H. apply Forall_app. split; [exact H |].
      apply Forall_singleton, frame_ok_register.
    - intros modes st' _ H. exact H.
    - intros h st' H. exact H.
    - intros bus' index st' H. exact H.
    - destruct (constructor_fields _ _ _ _ _ _ Hnew) as (_ & Heq).
      unfold wire_ok. rewrite Heq. exact Hlog. }
  split; [exact Hwire |].
  intros t Ht. unfold wire_ok in Hwire. rewrite Forall_forall in Hwire.
  destruct (Hwire t Ht) as (name & reg & data & Hreg & Hdata & ->).
  exists reg, data. split; [done |]. split; [| done].
  unfold _Registers in Hreg. apply elem_of_list_to_map_2 in Hreg.
  apply (list_elem_of_fmap_2 snd) in Hreg. exact Hreg.
Qed.

Lemma session_wire_format_witness :
  MAX7219 0 (Some 0) (Some 2) spi_boot node_globals = inr two_chips
  ∧ Forall frame_ok (spi_wire spi_boot)
  ∧ wire_ok (run_session
       [CallStartup; CallSetDigitSegmentsByte 9 (JNum 300); CallClearDisplay]
       two_chips).
Proof.
  assert (Hlog : Forall frame_ok (spi_wire spi_boot)) by apply Forall_nil_2.
  split; [reflexivity |]. split; [exact Hlog |].
  exact (proj1 (session_wire_format 0 (Some 0) (Some 2) spi_boot node_globals
                  two_chips _ eq_refl Hlog)).
Defined.

(** X10: the configuration of a controller is fixed at construction: after
    any session of calls, returning or throwing, [_bus] and
    [_totalControllers] are what the constructor stored, so the bounds
    that [setActiveController] checks never move, index 0 stays within
    them, and the state invariants hold: a handle is in [_spi] and the
    decode-mode vector, once set, has eight entries. *)
Theorem session_fixed_configuration bus device count d g st (cs : list call)
    (Hnew : MAX7219 bus device count d g = inr st) :
  _bus (this (run_session cs st)) = bus
  ∧ _totalControllers (this (run_session cs st)) = _totalControllers (this st)
  ∧ 1 ≤ _totalControllers (this (run_session cs st))
  ∧ is_Some (_spi (this (run_session cs st)))
  ∧ decode_wf (run_session cs st).
Proof.
  destruct (constructor_fields _ _ _ _ _ _ Hnew) as ((Hbus & Htotal & _) & _).
  assert (Hfixed : _bus (this (run_session cs st)) = bus
                   ∧ _totalControllers (this (run_session cs st))
                     = _totalControllers (this st)).
  { apply (any_session_preserves
             (λ st', _bus (this st') = bus
                     ∧ _totalControllers (this st') = _totalControllers (this st)));
      try done. }
  destruct Hfixed as (Hbus' & Htotal').
  destruct (session_ok _ _ _ _ _ _ cs Hnew) as (Hspi & Hwf).
  rewrite Htotal'. done.
Qed.

Lemma session_fixed_configuration_witness :
  MAX7219 0 (Some 0) (Some 2) spi_boot node_globals = inr two_chips
  ∧ _totalControllers (this (run_session
       [CallSetActiveController 1; CallSetDecodeAll; CallClearDisplay]
       two_chips)) = 2.
Proof.
  split; [reflexivity |].
  destruct (session_fixed_configuration 0 (Some 0) (Some 2) spi_boot
              node_globals two_chips
              [CallSetActiveController 1; CallSetDecodeAll; CallClearDisplay]
              eq_refl) as (_ & Htotal & _).
  exact Htotal.
Defined.

Lemma call_throws_expected (c : call) st e st' :
  controller_ok st →
  globalThis st !! "bus" = None → globalThis st !! "segments" = None →
  run_call c st = Throw e st' → expected_exn e = true.
Proof.
  intros [[h Hspi] Hwf] Hbus Hsegments Hthrow.
  assert (Hshift : ∀ a b, _shiftOut a b st ≠ Throw e st')
    by (intros a b; by rewrite (shiftOut_sent _ h)).
  destruct c; simpl in Hthrow.
  - (* setActiveController *)
    destruct (decide (0 ≤ index < _totalControllers (this st))) as [Hin | Hout].
    + rewrite (setActiveController_in_range _ h) in Hthrow by done.
      by injection Hthrow as <-.
    + unfold setActiveController in Hthrow.
      rewrite (bind_Return get _ st st st) in Hthrow by done.
      rewrite index_guard_out in Hthrow by done. by injection Hthrow as <-.
  - by apply Hshift in Hthrow.
  - by apply Hshift in Hthrow.
  - by apply Hshift in Hthrow.
  - by apply Hshift in Hthrow.
  - (* setDecodeMode *)
    destruct (decide (length modes = 8%nat)) as [Hlen | Hlen].
    + by rewrite (setDecodeMode_sent _ h) in Hthrow.
    + rewrite setDecodeMode_rejects in Hthrow by done. by injection Hthrow as <-.
  - unfold setDecodeNone in Hthrow. by rewrite (setDecodeMode_sent _ h) in Hthrow.
  - unfold setDecodeAll in Hthrow. by rewrite (setDecodeMode_sent _ h) in Hthrow.
  - (* setDigitSegments *)
    destruct (decide (0 ≤ n ≤ 7)) as [Hin | Hout].
    + rewrite setDigitSegments_in_range in Hthrow by done.
      by injection Hthrow as <-.
    + rewrite setDigitSegments_out_of_range in Hthrow by done.
      by injection Hthrow as <-.
  - by apply Hshift in Hthrow.
  - (* setDigitSymbol *)
    unfold setDigitSymbol in Hthrow.
    destruct (_ || _); [by injection Hthrow as <- | by apply Hshift in Hthrow].
  - (* clearDisplay *)
    destruct (_decodeModes (this st)) as [modes |] eqn:Hmodes.
    + unfold decode_wf in Hwf. rewrite Hmodes in Hwf.
      by rewrite (clearDisplay_set _ h modes) in Hthrow.
    + by rewrite (clearDisplay_unset _ h) in Hthrow.
  - unfold setDisplayIntensity in Hthrow.
    destruct (_ || _); [by injection Hthrow as <- | by apply Hshift in Hthrow].
  - unfold setScanLimit in Hthrow.
    destruct (_ || _); [by injection Hthrow as <- | by apply Hshift in Hthrow].
Qed.

Lemma session_without_reselection (I : state → Prop) (cs : list call) :
  (∀ h msg s, I s → I (transferred h msg s)) →
  (∀ modes s, length modes = 8%nat → I s → I (with_decodeModes modes s)) →
  ∀ st0 st,
    Forall (λ c, ¬ reselects st0 c) cs →
    _totalControllers (this st) = _totalControllers (this st0) →
    I st → I (run_session cs st).
Proof.
  intros Htransfer Hdecode.
  induction cs as [| c cs IH]; intros st0 st Hcs Htotal Hst; simpl; [done |].
  apply Forall_cons in Hcs as [Hc Hcs].
  set (J := λ s, I s ∧ _totalControllers (this s) = _totalControllers (this st0)).
  assert (Hnext : J (state_after (run_call c st))).
  { apply (preserves_call J).
    - intros h msg s [H Ht]. split; [by apply Htransfer | exact Ht].
    - intros modes s Hlen [H Ht]. split; [by apply Hdecode | exact Ht].
    - destruct c; try done. simpl in *. by rewrite Htotal.
    - by split. }
  destruct Hnext as [Hnext Htotal']. by apply (IH st0).
Qed.

Lemma constructed_handle_open bus device count d g st :
  MAX7219 bus device count d g = inr st → handle_open st.
Proof.
  unfold MAX7219. destruct (_ <? 0); [discriminate |].
  intros [= <-]. eexists. split; [reflexivity |]. apply list_elem_of_here.
Qed.

(** X11: in a process whose global object has no property [bus] or
    [segments], take a constructed controller after any session in which
    no call re-selected the active controller with an index in range.
    The handle in [_spi] is then still open, and a call that throws
    throws one of the driver's six validation messages or the
    ReferenceError for [bus] or [segments]: [_shiftOut] does not throw
    "SPI device not initialized", and no call fails on an unset [_spi] or
    [_decodeModes]. *)
Theorem session_throws_only_expected bus device count d g st
    (cs : list call) (c : call) e st'
    (Hnew : MAX7219 bus device count d g = inr st)
    (Hbus : g !! "bus" = None) (Hsegments : g !! "segments" = None)
    (Hcs : Forall (λ c, ¬ reselects st c) cs)
    (Hthrow : run_call c (run_session cs st) = Throw e st') :
  handle_open (run_session cs st)
  ∧ expected_exn e = true
  ∧ e ≠ Thrown "SPI device not initialized"
  ∧ e ≠ TypeError "Cannot read properties of undefined".
Proof.
  destruct (constructor_fields _ _ _ _ _ _ Hnew) as ((_ & _ & _ & Hg) & _).
  assert (Hinv : controller_ok (run_session cs st)
                 ∧ handle_open (run_session cs st)
                 ∧ globalThis (run_session cs st) = g).
  { apply (session_without_reselection
             (λ s, controller_ok s ∧ handle_open s ∧ globalThis s = g) cs)
      with (st0 := st); [| | exact Hcs | done |].
    - intros h msg s H. exact H.
    - intros modes s Hlen (Hok & Hrest).
      split; [by apply controller_ok_with_decodeModes | exact Hrest].
    - split; [by eapply constructed_ok |].
      split; [by eapply constructed_handle_open | exact Hg]. }
  destruct Hinv as (Hok & Hopen & Hglobals).
  assert (He : expected_exn e = true).
  { eapply call_throws_expected; [exact Hok | | | exact Hthrow];
      by rewrite Hglobals. }
  split; [exact Hopen |]. split; [exact He |].
  split; intros ->; discriminate He.
Qed.

Lemma session_throws_only_expected_witness :
  MAX7219 0 (Some 0) (Some 2) spi_boot node_globals = inr two_chips
  ∧ node_globals !! "bus" = None ∧ node_globals !! "segments" = None
  ∧ Forall (λ c, ¬ reselects two_chips c) [CallClearDisplay]
  ∧ run_call (CallSetDigitSegments 0 no_decode)
      (run_session [CallClearDisplay] two_chips)
    = Throw (ReferenceError "segments")
        (run_session [CallClearDisplay] two_chips)
  ∧ expected_exn (ReferenceError "segments") = true.
Proof.
  assert (Hbus : node_globals !! "bus" = None) by (by vm_compute).
  assert (Hsegments : node_globals !! "segments" = None) by (by vm_compute).
  assert (Hcs : Forall (λ c, ¬ reselects two_chips c) [CallClearDisplay])
    by (repeat constructor; simpl; tauto).
  assert (Hthrow :
    run_call (CallSetDigitSegments 0 no_decode)
      (run_session [CallClearDisplay] two_chips)
    = Throw (ReferenceError "segments")
        (run_session [CallClearDisplay] two_chips)) by reflexivity.
  split; [reflexivity |]. split; [exact Hbus |]. split; [exact Hsegments |].
  split; [exact Hcs |]. split; [exact Hthrow |].
  destruct (session_throws_only_expected 0 (Some 0) (Some 2) spi_boot
              node_globals two_chips [CallClearDisplay]
              (CallSetDigitSegments 0 no_decode) _ _ eq_refl Hbus Hsegments
              Hcs Hthrow) as (_ & He & _).
  exact He.
Defined.

Lemma owns_one_handle_session (cs : list call) :
  ∀ st0 st,
    Forall (λ c, ¬ reselects st0 c) cs →
    _totalControllers (this st) = _totalControllers (this st0) →
    owns_one_handle st → owns_one_handle (run_session cs st).
Proof.
  induction cs as [| c cs IH]; intros st0 st Hcs Htotal Hown; simpl; [done |].
  apply Forall_cons in Hcs as [Hc Hcs].
  set (I := λ s, owns_one_handle s
                 ∧ _totalControllers (this s) = _totalControllers (this st0)).
  assert (Hnext : I (state_after (run_call c st))).
  { apply (preserves_call I).
    - intros h msg s H. exact H.
    - intros modes s _ H. exact H.
    - destruct c; try done. simpl in *. by rewrite Htotal.
    - by split. }
  destruct Hnext as [Hown' Htotal']. by apply (IH st0).
Qed.

(** X12: as long as no call re-selects the active controller with an
    index in range, a controller constructed over a transport with no
    open handle owns exactly one handle: after the session the handle in
    [_spi] is open and is the only open one.  Transfers, decode-mode
    changes, failed validations and out-of-range re-selections neither
    open nor close a handle. *)
Theorem session_owns_one_handle bus device count g st (cs : list call)
    (Hnew : MAX7219 bus device count spi_boot g = inr st)
    (Hcs : Forall (λ c, ¬ reselects st c) cs) :
  owns_one_handle (run_session cs st).
Proof.
  apply (owns_one_handle_session cs st); [exact Hcs | done |].
  by eapply constructed_owns_one_handle.
Qed.

Lemma session_owns_one_handle_witness :
  MAX7219 0 (Some 0) (Some 2) spi_boot node_globals = inr two_chips
  ∧ Forall (λ c, ¬ reselects two_chips c)
      [CallSetActiveController 2; CallSetDecodeAll; CallClearDisplay]
  ∧ spi_open (SPI (run_session
       [CallSetActiveController 2; CallSetDecodeAll; CallClearDisplay]
       two_chips)) = [first_handle].
Proof.
  assert (Hcs : Forall (λ c, ¬ reselects two_chips c)
                  [CallSetActiveController 2; CallSetDecodeAll; CallClearDisplay]).
  { repeat constructor; simpl; [lia | tauto | tauto]. }
  split; [reflexivity |]. split; [exact Hcs |].
  destruct (session_owns_one_handle 0 (Some 0) (Some 2) node_globals two_chips
              _ eq_refl Hcs) as (h & Hspi & Hopen).
  rewrite Hopen. f_equal.
  assert (Hsome : Some h = Some first_handle) by (rewrite <- Hspi; reflexivity).
  by injection Hsome.
Defined.

Lemma getActiveController_run st :
  getActiveController st = Return (_activeController (this st)) st.
Proof. reflexivity. Qed.

(** X13: in a process whose global object has no property [bus], the
    active controller never changes: after any session of calls,
    re-selections with any index included, [getActiveController()] still
    returns the device given to the constructor (0 when omitted). *)
Theorem session_active_controller_constant bus device count d g st
    (cs : list call)
    (Hnew : MAX7219 bus device count d g = inr st)
    (Hglobal : g !! "bus" = None) :
  getActiveController (run_session cs st)
  = Return (default 0 device) (run_session cs st).
Proof.
  rewrite getActiveController_run. f_equal.
  destruct (constructor_fields _ _ _ _ _ _ Hnew) as ((_ & _ & Hactive & Hg) & _).
  pose proof (constructed_ok _ _ _ _ _ _ Hnew) as Hok.
  set (I := λ s, controller_ok s ∧ globalThis s !! "bus" = None
                 ∧ _activeController (this s) = default 0 device).
  assert (Hst : I st) by (unfold I; by rewrite Hg).
  assert (Hend : I (run_session cs st)); [| by destruct Hend as (_ & _ & ?)].
  clear Hnew Hactive Hg Hok. revert st Hst.
  induction cs as [| c cs IH]; intros st Hst; simpl; [done |].
  apply IH. destruct (call_cases c) as [[index ->] | Hne].
  - destruct (decide (0 ≤ index < _totalControllers (this st))) as [Hin | Hout].
    + destruct Hst as ([[h Hspi] Hwf] & Hbus & Hact). simpl.
      rewrite (setActiveController_in_range _ h) by done. simpl.
      split; [split; [by exists h | exact Hwf] | done].
    + simpl. by rewrite setActiveController_rejected.
  - apply (preserves_display_call I); [| | done | done].
    + intros h msg s H. exact H.
    + intros modes s Hlen (Hok & Hrest).
      split; [by apply controller_ok_with_decodeModes | exact Hrest].
Qed.

Lemma session_active_controller_constant_witness :
  MAX7219 0 (Some 0) (Some 2) spi_boot node_globals = inr two_chips
  ∧ node_globals !! "bus" = None
  ∧ getActiveController
      (run_session [CallSetActiveController 1; CallStartup] two_chips)
    = Return 0 (run_session [CallSetActiveController 1; CallStartup] two_chips).
Proof.
  assert (Hglobal : node_globals !! "bus" = None) by (by vm_compute).
  split; [reflexivity |]. split; [exact Hglobal |].
  exact (session_active_controller_constant 0 (Some 0) (Some 2) spi_boot
           node_globals two_chips [CallSetActiveController 1; CallStartup]
           eq_refl Hglobal).
Defined.

(** ** The example scripts *)

Lemma example_setup_run st h :
  _spi (this st) = Some h → _decodeModes (this st) = None →
  example_setup st
  = Return tt
      (sent h ([(0x0b, 0x07); (0x0c, 0x01); (0x09, 0x00)] ++ blank_frames)
         (with_decodeModes no_decode st)).
Proof.
  intros Hspi Hmodes. unfold example_setup.
  assert (Hscan : setScanLimit 8 st = Return tt (sent h [(0x0b, 0x07)] st)).
  { unfold setScanLimit. rewrite scan_guard_in by lia.
    by rewrite (shiftOut_sent _ h). }
  rewrite (bind_Return _ _ _ _ _ Hscan).
  erewrite bind_Return; [| unfold startup; by apply (shiftOut_sent _ h)].
  rewrite (clearDisplay_unset _ h) by done. f_equal.
  change (with_decodeModes ?m (sent h ?fs1 (sent h ?fs2 st)))
    with (sent h fs1 (sent h fs2 (with_decodeModes m st))).
  by rewrite !sent_sent.
Qed.

(** X14: the three calls with which every example script starts, on the
    controller [new max7219(0)] has just made, return after sending
    eleven frames in this order: scan limit 7 (all eight digits), Shutdown
    register 1 (normal operation), decode mode 0x00, then 0x00 to each of
    the digit registers 1 to 8; the controller is left in no-decode mode
    with one chip, device 0. *)
Theorem example_setup_frames d g st
    (Hnew : MAX7219 0 None None d g = inr st) :
  ∃ h st',
    _spi (this st) = Some h
    ∧ example_setup st = Return tt st'
    ∧ spi_wire (SPI st')
      = (spi_wire d
         ++ ((λ f : Z * Z, (h, frame f.1 f.2))
             <$> [ (0x0b, 0x07); (0x0c, 0x01); (0x09, 0x00);
                   (0x01, 0x00); (0x02, 0x00); (0x03, 0x00); (0x04, 0x00);
                   (0x05, 0x00); (0x06, 0x00); (0x07, 0x00); (0x08, 0x00) ]))%list
    ∧ _decodeModes (this st') = Some no_decode
    ∧ _totalControllers (this st') = 1
    ∧ _activeController (this st') = 0.
Proof.
  unfold MAX7219 in Hnew. simpl in Hnew. injection Hnew as <-.
  eexists _, _. split; [reflexivity |].
  split; [by apply example_setup_run |]. by repeat split.
Qed.

Lemma example_setup_frames_witness :
  MAX7219 0 None None spi_boot node_globals
  = inr (State (Controller 0 0 1 None (Some first_handle))
           (SpiDevice [first_handle] 4 []) node_globals)
  ∧ length (spi_wire (SPI (state_after (example_setup
              (State (Controller 0 0 1 None (Some first_handle))
                 (SpiDevice [first_handle] 4 []) node_globals))))) = 11%nat.
Proof.
  split; [reflexivity |].
  destruct (example_setup_frames spi_boot node_globals
              (State (Controller 0 0 1 None (Some first_handle))
                 (SpiDevice [first_handle] 4 []) node_globals) eq_refl)
    as (h & st' & _ & Hrun & Hwire & _).
  rewrite Hrun. simpl state_after. rewrite Hwire. reflexivity.
Defined.

(** X15: the two scripts that end in [disp.setText(name)] and in
    [disp.showMessage("Hello, everyone", 250)] call functions the driver
    does not define.  Each runs the set-up, which succeeds and clears the
    display, and then throws a TypeError; nothing more is sent. *)
Theorem scripts_call_missing_methods d g :
  has_method "setText" = false ∧ has_method "showMessage" = false
  ∧ ∃ st',
      run_script example_setup d g = inr (Return tt st')
      ∧ run_script script_setText d g
        = inr (Throw (TypeError "disp.setText is not a function") st')
      ∧ run_script script_showMessage d g
        = inr (Throw (TypeError "disp.showMessage is not a function") st').
Proof.
  split; [by vm_compute |]. split; [by vm_compute |].
  unfold run_script.
  destruct (MAX7219 0 None None d g) as [e | st] eqn:Hnew; [discriminate |].
  unfold MAX7219 in Hnew. simpl in Hnew. injection Hnew as <-.
  eexists. split; [by erewrite example_setup_run |].
  unfold script_setText, script_showMessage.
  by erewrite !bind_Return by (by apply example_setup_run).
Qed.

(** ** Numbers as symbols *)

Lemma digit_patterns_ok : forallb digit_pattern_ok (seqZ 0 10) = true.
Proof. by vm_compute. Qed.

(** X16: a decimal digit passed as the symbol, as the example scripts do
    with numbers, is displayed: for every [d] in [0,9] the font has an
    entry under the key [d] converts to, its pattern is not blank, fits
    the seven segment bits, and is the pattern of no other decimal digit;
    [setDigitSymbol(n, d, dp)] sends it, with the decimal-point bit added
    when [dp] is truthy. *)
Theorem setDigitSymbol_decimal_digits st h n d dp
    (Hspi : _spi (this st) = Some h) (Hn : 0 ≤ n ≤ 7) (Hd : 0 ≤ d ≤ 9) :
  ∃ pattern,
    _Font !! number_to_string d = Some pattern
    ∧ 0 < pattern < 128
    ∧ setDigitSymbol n (number_to_string d) dp st
      = Return tt
          (sent h [(n + 1, Z.lor pattern (if truthy dp then 0x80 else 0))] st)
    ∧ ∀ d', 0 ≤ d' ≤ 9 → _Font !! number_to_string d' = Some pattern → d' = d.
Proof.
  pose proof digit_patterns_ok as Hall. rewrite forallb_forall in Hall.
  assert (Hok : digit_pattern_ok d = true)
    by (apply Hall, list_elem_of_In, elem_of_seqZ; lia).
  unfold digit_pattern_ok in Hok.
  destruct (_Font !! number_to_string d) as [v |] eqn:Hv; [| discriminate].
  apply andb_true_iff in Hok as [Hrange Hothers].
  apply andb_true_iff in Hrange as [Hlo Hhi].
  exists v. split; [done |]. split; [lia |]. split.
  - rewrite (setDigitSymbol_sent _ h) by done. unfold lookup. by rewrite Hv.
  - intros d' Hd' Hv'. rewrite forallb_forall in Hothers.
    assert (Hin : In d' (seqZ 0 10))
      by (apply list_elem_of_In, elem_of_seqZ; lia).
    apply Hothers in Hin. apply orb_true_iff in Hin as [Heq | Hne]; [lia |].
    apply negb_true_iff, bool_decide_eq_false in Hne. done.
Qed.

Lemma setDigitSymbol_decimal_digits_witness :
  _spi (this two_chips) = Some first_handle ∧ 0 ≤ 4 ≤ 7 ∧ 0 ≤ 5 ≤ 9
  ∧ setDigitSymbol 4 (number_to_string 5) JUndefined two_chips
    = Return tt (sent first_handle [(5, 0x5b)] two_chips).
Proof.
  assert (Hn : 0 ≤ 4 ≤ 7) by lia. assert (Hd : 0 ≤ 5 ≤ 9) by lia.
  split; [reflexivity |]. split; [exact Hn |]. split; [exact Hd |].
  destruct (setDigitSymbol_decimal_digits two_chips first_handle 4 5 JUndefined
              eq_refl Hn Hd) as (pattern & Hfont & _ & Hrun & _).
  rewrite Hrun. vm_compute in Hfont. injection Hfont as <-. reflexivity.
Defined.
